(** * certissue: validation and batch rendering

    A shallow embedding of [certissue.py].  The program validates its
    command-line arguments, loads a roster from a CSV file and renders one
    certificate (a PDF and a PNG) per roster entry, or only the first entry
    in test mode.

    Conventions of the embedding:
    - Python [int] is [Z]; Python [str] is [string].  [str.lower] is modelled
      on the ASCII letters; no other character lowers to one of the letters
      of "on", "off", ".png" or ".csv", so every comparison the program makes
      after [lower()] is decided exactly.
    - Everything outside the process (the [fonts] directory, the template
      image, the font files, the CSV file, whether a file can be written) is
      a [world]; an operation the world refuses raises, as in Python.
    - A computation is a function from the world to a [result] and the list
      of [event]s (lines printed, files saved) it produced, in order.
      [sys.exit] and uncaught exceptions abort the rest of the computation.
    - Pillow images are symbolic terms recording how they were built.  Every
      Pillow call that reads or writes a file, decodes pixels, loads a font
      or draws text asks the world whether it goes through. *)

From Stdlib Require Import ZArith QArith Lia Ascii.
From stdpp Require Import base list strings gmap.

Local Open Scope Z_scope.

(** ** Python strings *)

Module PyStr.

(** [c.lower()] for one character: 'A'..'Z' move to 'a'..'z'. *)
Definition lower_char (c : ascii) : ascii :=
  let n := N_of_ascii c in
  if ((65 <=? n) && (n <=? 90))%N then ascii_of_N (n + 32) else c.

(** [s.lower()] *)
Fixpoint lower (s : string) : string :=
  match s with
  | EmptyString => EmptyString
  | String c s' => String (lower_char c) (lower s')
  end.

(** [s.rfind(c)] for a one-character [c]: the highest index holding [c],
    or -1.  [i] is the index of the head of [s], [last] the best so far. *)
Fixpoint rfind_from (s : string) (c : ascii) (i last : Z) : Z :=
  match s with
  | EmptyString => last
  | String a s' => rfind_from s' c (i + 1) (if Ascii.eqb a c then i else last)
  end.

Definition rfind (s : string) (c : ascii) : Z := rfind_from s c 0 (-1).

(** [s[:n]] and [s[n:]] for [n >= 0] *)
Fixpoint take (n : nat) (s : string) : string :=
  match n, s with
  | O, _ => EmptyString
  | S _, EmptyString => EmptyString
  | S n', String c s' => String c (take n' s')
  end.

Fixpoint drop (n : nat) (s : string) : string :=
  match n, s with
  | O, _ => s
  | S _, EmptyString => EmptyString
  | S n', String _ s' => drop n' s'
  end.

(** [s[lo:hi]] for [0 <= lo] *)
Definition slice (s : string) (lo hi : Z) : string :=
  take (Z.to_nat (hi - lo)) (drop (Z.to_nat lo) s).

End PyStr.

(** ** [os.path.splitext] (posixpath, through [genericpath._splitext]) *)

Module OsPath.
Import PyStr.

(** The loop
<<
      while filenameIndex < dotIndex:
          if p[filenameIndex:filenameIndex+1] != extsep:
              return p[:dotIndex], p[dotIndex:]
          filenameIndex += 1
>>
    [n] counts the iterations left, [dotIndex - filenameIndex].  [None]
    means the loop ended without returning. *)
Fixpoint skip_leading_dots (n : nat) (p : string) (filenameIndex dotIndex : Z)
  : option (string * string) :=
  match n with
  | O => None
  | S n' =>
      if negb (String.eqb (slice p filenameIndex (filenameIndex + 1)) ".")
      then Some (slice p 0 dotIndex, drop (Z.to_nat dotIndex) p)
      else skip_leading_dots n' p (filenameIndex + 1) dotIndex
  end.

Definition splitext (p : string) : string * string :=
  let sepIndex := rfind p "/" in
  let dotIndex := rfind p "." in
  if sepIndex <? dotIndex then
    let filenameIndex := sepIndex + 1 in
    match skip_leading_dots (Z.to_nat (dotIndex - filenameIndex)) p
                            filenameIndex dotIndex with
    | Some r => r
    | None => (p, "")
    end
  else (p, "").

End OsPath.

(** ** Values, images, events *)

(** The Python values that reach the roster: a string or [None]. *)
Inductive pyval :=
| PStr (s : string)
| PNone.

(** [str(v)], as an f-string field formats it *)
Definition py_str (v : pyval) : string :=
  match v with
  | PStr s => s
  | PNone => "None"
  end.

(** One element of [names]: the dict [{"first_name": _, "last_name": _}]. *)
Record RosterEntry := {
  first_name : pyval;
  last_name : pyval
}.

Definition rgba : Type := Z * Z * Z * Z.

(** A loaded font: [ImageFont.truetype(path, size)]. *)
Record font := { fnt_path : string; fnt_size : Z }.

(** Pillow images, by construction. *)
Inductive image :=
| Opened (path : string) (size : Z * Z)          (* Image.open(path) *)
| Converted (mode : string) (im : image)         (* im.convert(mode) *)
| New (mode : string) (size : Z * Z) (color : rgba)   (* Image.new(mode, size, color) *)
| Text (im : image) (xy : Z * Z) (text : string) (fnt : font) (fill : rgba)
                                                  (* ImageDraw.Draw(im).text(xy, text, font=, fill=) *)
| AlphaComposite (im1 im2 : image).              (* Image.alpha_composite(im1, im2) *)

Fixpoint image_size_of (im : image) : Z * Z :=
  match im with
  | Opened _ sz => sz
  | Converted _ im' => image_size_of im'
  | New _ sz _ => sz
  | Text im' _ _ _ _ => image_size_of im'
  | AlphaComposite im1 _ => image_size_of im1
  end.

(** What the process does to the outside: a line on standard output, or
    [im.save(fp, format=format, **params)]. *)
Inductive event :=
| Print (line : string)
| Save (im : image) (fp : string) (format : string) (params : list (string * Q)).

Definition is_save (e : event) : bool :=
  match e with Save _ _ _ _ => true | Print _ => false end.

(** The files written, in order. *)
Definition writes (tr : list event) : list event := filter is_save tr.

Definition saved_name (e : event) : option string :=
  match e with Save _ fp _ _ => Some fp | Print _ => None end.

(** [params.get(key)] on the keyword arguments of a save *)
Fixpoint kwarg (key : string) (params : list (string * Q)) : option Q :=
  match params with
  | [] => None
  | (k, v) :: rest => if String.eqb k key then Some v else kwarg key rest
  end.

(** ** The world and the computations *)

Record world := {
  (** [os.listdir("fonts")], [None] when it raises *)
  listdir_fonts : option (list string);
  (** the (width, height) of the image [Image.open] finds at a path, [None]
      when it raises *)
  image_dims : string -> option (Z * Z);
  (** whether the pixels of the image at a path can be decoded (the file is
      read when the opened image is first converted) *)
  can_decode : string -> bool;
  (** whether [ImageFont.truetype(path, size)] succeeds *)
  font_loads : string -> Z -> bool;
  (** whether [ImageDraw.Draw(im).text(xy, text, font=fnt, fill=fill)]
      succeeds *)
  can_draw : image -> Z * Z -> string -> font -> rgba -> bool;
  (** whether [im.save(fp, ...)] succeeds *)
  can_save : string -> bool;
  (** the rows [csv.reader] yields for the file at a path (a blank line
      yields the empty row), [None] when [open] or the reading raises *)
  csv_rows : string -> option (list (list string))
}.

(** The calls that leave the process.  When the world refuses one, Python
    raises; the class of the exception depends on the cause ([OSError] and
    its subclasses, [ValueError], Pillow's own errors), so the exception is
    named after the call. *)
Inductive operation :=
| ListFonts                                  (* os.listdir("fonts") *)
| OpenImage (path : string)                  (* Image.open(path) *)
| DecodeImage (path : string)                (* the first convert of an opened image *)
| LoadFont (path : string) (size : Z)        (* ImageFont.truetype(path, size) *)
| DrawText (xy : Z * Z) (text : string)      (* ImageDraw.text(xy, text, ...) *)
| SaveImage (fp : string)                    (* im.save(fp, ...) *)
| ReadFile (path : string).                  (* open(path) and the reading of it *)

Inductive pyexn :=
| IndexError
| KeyError (key : string)
| Failed (op : operation).

(** How a computation stops short: [sys.exit(msg)] or an uncaught exception. *)
Inductive abort :=
| SysExit (msg : option string)
| Uncaught (e : pyexn).

Inductive result (A : Type) :=
| Ret (a : A)
| Abort (ab : abort).
Arguments Ret {A} a.
Arguments Abort {A} ab.

Definition M (A : Type) : Type := world -> result A * list event.

Definition ret {A} (a : A) : M A := fun _ => (Ret a, []).

Definition bind {A B} (m : M A) (k : A -> M B) : M B :=
  fun w =>
    match m w with
    | (Ret a, tr) => let '(r, tr') := k a w in (r, tr ++ tr')
    | (Abort ab, tr) => (Abort ab, tr)
    end.

Notation "x <- m ;; k" := (bind m (fun x => k))
  (at level 100, m at next level, right associativity).
Notation "m ;;; k" := (bind m (fun _ => k))
  (at level 100, right associativity).

Definition raise {A} (e : pyexn) : M A := fun _ => (Abort (Uncaught e), []).

(** [sys.exit(msg)] and [sys.exit()] *)
Definition sys_exit {A} (msg : option string) : M A :=
  fun _ => (Abort (SysExit msg), []).

Definition print (line : string) : M unit := fun _ => (Ret tt, [Print line]).

(** [for a in l: body(a)] *)
Fixpoint for_each {A} (l : list A) (body : A -> M unit) : M unit :=
  match l with
  | [] => ret tt
  | a :: l' => body a ;;; for_each l' body
  end.

(** [range(n)] *)
Definition range (n : Z) : list Z := map Z.of_nat (seq 0 (Z.to_nat n)).

(** [l[i]] on a Python list: a negative index counts from the end. *)
Definition list_getitem {A} (l : list A) (i : Z) : M A :=
  let j := if i <? 0 then i + Z.of_nat (length l) else i in
  if j <? 0 then raise IndexError
  else match l !! Z.to_nat j with
       | Some a => ret a
       | None => raise IndexError
       end.

Definition os_listdir_fonts : M (list string) :=
  fun w => match listdir_fonts w with
           | Some l => (Ret l, [])
           | None => (Abort (Uncaught (Failed ListFonts)), [])
           end.

Definition Image_open (path : string) : M image :=
  fun w => match image_dims w path with
           | Some sz => (Ret (Opened path sz), [])
           | None => (Abort (Uncaught (Failed (OpenImage path))), [])
           end.

(** [im.convert(mode)]: an image just opened has its pixels decoded now. *)
Definition Image_convert (im : image) (mode : string) : M image :=
  fun w => match im with
           | Opened path _ =>
               if can_decode w path then (Ret (Converted mode im), [])
               else (Abort (Uncaught (Failed (DecodeImage path))), [])
           | _ => (Ret (Converted mode im), [])
           end.

Definition ImageFont_truetype (path : string) (size : Z) : M font :=
  fun w => if font_loads w path size
           then (Ret {| fnt_path := path; fnt_size := size |}, [])
           else (Abort (Uncaught (Failed (LoadFont path size))), []).

(** [ImageDraw.Draw(im).text(xy, text, font=fnt, fill=fill)]: the image
    with the text drawn on it. *)
Definition ImageDraw_text (im : image) (xy : Z * Z) (text : string) (fnt : font)
    (fill : rgba) : M image :=
  fun w => if can_draw w im xy text fnt fill
           then (Ret (Text im xy text fnt fill), [])
           else (Abort (Uncaught (Failed (DrawText xy text))), []).

Definition Image_save (im : image) (fp format : string) (params : list (string * Q))
  : M unit :=
  fun w => if can_save w fp
           then (Ret tt, [Save im fp format params])
           else (Abort (Uncaught (Failed (SaveImage fp))), []).

Definition open_csv (path : string) : M (list (list string)) :=
  fun w => match csv_rows w path with
           | Some rows => (Ret rows, [])
           | None => (Abort (Uncaught (Failed (ReadFile path))), [])
           end.

(** ** [csv.DictReader] *)

Module Csv.

(** A row as [DictReader] yields it: the values under the string keys, and
    the value under the rest key ([None]) when there is one. *)
Record dict := {
  fields : gmap string pyval;
  rest_value : option (list string)
}.

(** [{}] *)
Definition empty_dict : dict := {| fields := ∅; rest_value := None |}.

(** [d[k] = v] for a pair [(k, v)] of [zip] *)
Definition put (d : dict) (kv : string * string) : dict :=
  {| fields := <[kv.1 := PStr kv.2]> (fields d); rest_value := rest_value d |}.

(** [d[key] = self.restval] *)
Definition blank (d : dict) (key : string) : dict :=
  {| fields := <[key := PNone]> (fields d); rest_value := rest_value d |}.

(** [d[self.restkey] = l] *)
Definition put_rest (d : dict) (l : list string) : dict :=
  {| fields := fields d; rest_value := Some l |}.

(** [dict(zip(fieldnames, row))]: of two pairs with one key the later
    one stays. *)
Definition dict_of_zip (fieldnames row : list string) : dict :=
  foldl put empty_dict (zip fieldnames row).

(** The body of [DictReader.__next__] once a non-blank row is read. *)
Definition DictReader_row (fieldnames row : list string) : dict :=
  let d := dict_of_zip fieldnames row in
  let lf := length fieldnames in
  let lr := length row in
  if (lf <? lr)%nat then put_rest d (drop lf row)
  else if (lr <? lf)%nat then
    foldl blank d (drop lr fieldnames)
  else d.

(** The rows of data: what follows the first row, blank rows skipped
    ([while row == []: row = next(self.reader)]). *)
Definition data_rows (rest : list (list string)) : list (list string) :=
  filter (fun row => row <> []) rest.

(** All the dicts a [DictReader] over the given [csv.reader] rows yields:
    the first row gives the field names. *)
Definition DictReader (rows : list (list string)) : list dict :=
  match rows with
  | [] => []
  | fieldnames :: rest => map (DictReader_row fieldnames) (data_rows rest)
  end.

(** [d[key]] for a string [key] *)
Definition dict_getitem (d : dict) (key : string) : M pyval :=
  match fields d !! key with
  | Some v => ret v
  | None => raise (KeyError key)
  end.

End Csv.

(** ** The program *)

(** The namespace [parse_arguments] returns. *)
Record Args := {
  arg_x : Z;
  arg_y : Z;
  arg_i : string;
  arg_fo : string;
  arg_s : Z;
  arg_fi : string;
  arg_t : string;
  arg_r : Z;
  arg_g : Z;
  arg_b : Z
}.

Definition validate_test_mode (test_mode : string) : M bool :=
  (if negb (String.eqb (PyStr.lower test_mode) "on")
      && negb (String.eqb (PyStr.lower test_mode) "off")
   then sys_exit (Some "Test mode must either be ON or OFF")
   else ret tt) ;;;
  ret true.

Definition validate_font (font_name : string) : M bool :=
  fonts_list <- os_listdir_fonts ;;
  (if bool_decide (font_name ∉ fonts_list)
   then print "Available fonts:" ;;;
        for_each fonts_list (fun fonts => print fonts) ;;;
        sys_exit None
   else ret tt) ;;;
  ret true.

Definition validate_image_extension (certification : string) : M bool :=
  let name_and_extension := OsPath.splitext certification in
  let extension := PyStr.lower (snd name_and_extension) in
  if String.eqb (PyStr.lower extension) ".png" then ret true
  else sys_exit (Some "Certification is not a .PNG file").

Definition validate_coordinates (x y : Z) (certification : string) : M bool :=
  img <- Image_open certification ;;
  let width := fst (image_size_of img) in
  let height := snd (image_size_of img) in
  (if (x >? width) || (x <? 0) || (y <? 0) || (y >? height)
   then sys_exit (Some "Invalid (x,y) coordinates")
   else ret tt) ;;;
  ret true.

Definition validate_csv_extension (csv_file : string) : M bool :=
  let name_and_extension := OsPath.splitext csv_file in
  let extension := PyStr.lower (snd name_and_extension) in
  if String.eqb extension ".csv" then ret true
  else sys_exit (Some "CSV file is not a .csv file").

Definition validate_rgb_colors (red green blue : Z) : M bool :=
  (if (red >? 255) || (red <? 0)
   then sys_exit (Some "Red must have value of range [0,255]")
   else ret tt) ;;;
  (if (green >? 255) || (green <? 0)
   then sys_exit (Some "Green must have value of range [0,255]")
   else ret tt) ;;;
  (if (blue >? 255) || (blue <? 0)
   then sys_exit (Some "Blue must have value of range [0,255]")
   else ret tt) ;;;
  ret true.

(** The loop of [get_full_name] over the rows the reader yields, with the
    two variables it updates. *)
Fixpoint get_full_name_loop (reader : list Csv.dict)
    (names : list RosterEntry) (number_of_rows : Z) : M (list RosterEntry * Z) :=
  match reader with
  | [] => ret (names, number_of_rows)
  | row :: reader' =>
      fn <- Csv.dict_getitem row "First name" ;;
      ln <- Csv.dict_getitem row "Last name" ;;
      get_full_name_loop reader'
        (names ++ [{| first_name := fn; last_name := ln |}])
        (number_of_rows + 1)
  end.

Definition get_full_name (csv_file : string) : M (list RosterEntry * Z) :=
  rows <- open_csv csv_file ;;
  get_full_name_loop (Csv.DictReader rows) [] 0.

(** The f-string [f"{names_list[i]['first_name']} {names_list[i]['last_name']}"]:
    two look-ups in the list, the fields joined by one space. *)
Definition full_name_at (names_list : list RosterEntry) (i : Z) : M string :=
  e1 <- list_getitem names_list i ;;
  e2 <- list_getitem names_list i ;;
  ret (py_str (first_name e1) +:+ " " +:+ py_str (last_name e2)).

Definition issue_certificates (names_list : list RosterEntry) (number_of_rows : Z)
    (x y : Z) (certification csv_file font_name : string) (font_size : Z)
    (mode : string) (red green blue : Z) : M unit :=
  (* When test mode is ON *)
  (if String.eqb (PyStr.lower mode) "on" then
     opened <- Image_open certification ;;
     base <- Image_convert opened "RGBA" ;;
     let txt := New "RGBA" (image_size_of base) (255, 255, 255, 0) in
     fnt <- ImageFont_truetype ("fonts/" +:+ font_name) font_size ;;
     text <- full_name_at names_list 0 ;;
     txt <- ImageDraw_text txt (x, y) text fnt (red, green, blue, 255) ;;
     let output := AlphaComposite base txt in
     rgb_output <- Image_convert output "RGB" ;;
     Image_save rgb_output "TEST.pdf" "PDF" [("resoultion", 100 # 1)] ;;;
     Image_save output "TEST.png" "PNG" [("resolution", 100 # 1)] ;;;
     sys_exit (Some "TEST certificates created successfully")
   else ret tt) ;;;
  (* When test mode is OFF *)
  for_each (range number_of_rows) (fun i =>
     opened <- Image_open certification ;;
     base <- Image_convert opened "RGBA" ;;
     let txt := New "RGBA" (image_size_of base) (255, 255, 255, 0) in
     fnt <- ImageFont_truetype ("fonts/" +:+ font_name) font_size ;;
     text <- full_name_at names_list i ;;
     txt <- ImageDraw_text txt (x, y) text fnt (red, green, blue, 255) ;;
     let output := AlphaComposite base txt in
     rgb_output <- Image_convert output "RGB" ;;
     pdf_name <- full_name_at names_list i ;;
     Image_save rgb_output (pdf_name +:+ ".pdf") "PDF" [("resoultion", 100 # 1)] ;;;
     png_name <- full_name_at names_list i ;;
     Image_save output (png_name +:+ ".PNG") "PNG" [("resolution", 100 # 1)]) ;;;
  sys_exit (Some "Certificates created successfully").

(** [main], from the parsed arguments on. *)
Definition main (args : Args) : M unit :=
  validate_test_mode (arg_t args) ;;;
  validate_font (arg_fo args) ;;;
  validate_image_extension (arg_i args) ;;;
  validate_coordinates (arg_x args) (arg_y args) (arg_i args) ;;;
  validate_csv_extension (arg_fi args) ;;;
  validate_rgb_colors (arg_r args) (arg_g args) (arg_b args) ;;;
  loaded <- get_full_name (arg_fi args) ;;
  let '(names_list, rows_count) := loaded in
  issue_certificates names_list rows_count (arg_x args) (arg_y args) (arg_i args)
    (arg_fi args) (arg_fo args) (arg_s args) (arg_t args)
    (arg_r args) (arg_g args) (arg_b args).

(** ** Vocabulary of the statements *)

(** Whether the character [c] occurs in [s]. *)
Fixpoint occurs (c : ascii) (s : string) : bool :=
  match s with
  | EmptyString => false
  | String a s' => Ascii.eqb a c || occurs c s'
  end.

(** A path whose last component holds a character that is not a dot: some
    [c], neither dot nor slash, with no slash after it. *)
Definition has_stem (root : string) : Prop :=
  exists pre (c : ascii) post,
    root = pre +:+ String c post
    /\ c <> "."%char /\ c <> "/"%char /\ occurs "/" post = false.

(** The text drawn for an entry and the stem of its file names. *)
Definition full_name (e : RosterEntry) : string :=
  py_str (first_name e) +:+ " " +:+ py_str (last_name e).

Section CertificateEvents.
Variables (x y : Z) (certification font_name : string) (font_size : Z).
Variables (red green blue : Z) (size : Z * Z).

(** Steps 1 to 5 of the rendering: the text drawn on a transparent layer
    of the template's size, composited over the template. *)
Definition composite (text : string) : image :=
  AlphaComposite
    (Converted "RGBA" (Opened certification size))
    (Text (New "RGBA" size (255, 255, 255, 0)) (x, y) text
          {| fnt_path := "fonts/" +:+ font_name; fnt_size := font_size |}
          (red, green, blue, 255)).

(** The two saves of test mode. *)
Definition test_pair (e : RosterEntry) : list event :=
  [ Save (Converted "RGB" (composite (full_name e))) "TEST.pdf" "PDF"
         [("resoultion", 100 # 1)];
    Save (composite (full_name e)) "TEST.png" "PNG" [("resolution", 100 # 1)] ].

(** The two saves of one entry in full mode. *)
Definition entry_pair (e : RosterEntry) : list event :=
  [ Save (Converted "RGB" (composite (full_name e))) (full_name e +:+ ".pdf") "PDF"
         [("resoultion", 100 # 1)];
    Save (composite (full_name e)) (full_name e +:+ ".PNG") "PNG"
         [("resolution", 100 # 1)] ].

Definition entry_files (e : RosterEntry) : list string :=
  [full_name e +:+ ".pdf"; full_name e +:+ ".PNG"].

(** Whether the world lets the text be drawn on the transparent layer. *)
Definition draws (w : world) (text : string) : bool :=
  can_draw w (New "RGBA" size (255, 255, 255, 0)) (x, y) text
           {| fnt_path := "fonts/" +:+ font_name; fnt_size := font_size |}
           (red, green, blue, 255).

End CertificateEvents.

(** The block of [issue_certificates] under [if (mode.lower() == "on")]. *)
Definition test_mode_block (names_list : list RosterEntry) (x y : Z)
    (certification font_name : string) (font_size : Z) (red green blue : Z) : M unit :=
  opened <- Image_open certification ;;
  base <- Image_convert opened "RGBA" ;;
  let txt := New "RGBA" (image_size_of base) (255, 255, 255, 0) in
  fnt <- ImageFont_truetype ("fonts/" +:+ font_name) font_size ;;
  text <- full_name_at names_list 0 ;;
  txt <- ImageDraw_text txt (x, y) text fnt (red, green, blue, 255) ;;
  let output := AlphaComposite base txt in
  rgb_output <- Image_convert output "RGB" ;;
  Image_save rgb_output "TEST.pdf" "PDF" [("resoultion", 100 # 1)] ;;;
  Image_save output "TEST.png" "PNG" [("resolution", 100 # 1)] ;;;
  sys_exit (Some "TEST certificates created successfully").

(** The body of the loop of [issue_certificates], at index [i]. *)
Definition full_mode_body (names_list : list RosterEntry) (x y : Z)
    (certification font_name : string) (font_size : Z) (red green blue : Z) (i : Z)
  : M unit :=
  opened <- Image_open certification ;;
  base <- Image_convert opened "RGBA" ;;
  let txt := New "RGBA" (image_size_of base) (255, 255, 255, 0) in
  fnt <- ImageFont_truetype ("fonts/" +:+ font_name) font_size ;;
  text <- full_name_at names_list i ;;
  txt <- ImageDraw_text txt (x, y) text fnt (red, green, blue, 255) ;;
  let output := AlphaComposite base txt in
  rgb_output <- Image_convert output "RGB" ;;
  pdf_name <- full_name_at names_list i ;;
  Image_save rgb_output (pdf_name +:+ ".pdf") "PDF" [("resoultion", 100 # 1)] ;;;
  png_name <- full_name_at names_list i ;;
  Image_save output (png_name +:+ ".PNG") "PNG" [("resolution", 100 # 1)].

(** The cell of a row in column [i]; a row too short to reach the column
    has [None] there (the [restval] of [DictReader]). *)
Definition cell (row : list string) (i : nat) : pyval :=
  match row !! i with
  | Some s => PStr s
  | None => PNone
  end.

(** What [get_full_name] appends for a row under the header [fieldnames]. *)
Definition entry_of_row (fieldnames row : list string) : RosterEntry :=
  {| first_name :=
       default PNone (Csv.fields (Csv.DictReader_row fieldnames row) !! "First name");
     last_name :=
       default PNone (Csv.fields (Csv.DictReader_row fieldnames row) !! "Last name") |}.

(** The six checks of [main], in the order [main] calls them. *)
Definition validators (args : Args) : list (M bool) :=
  [ validate_test_mode (arg_t args);
    validate_font (arg_fo args);
    validate_image_extension (arg_i args);
    validate_coordinates (arg_x args) (arg_y args) (arg_i args);
    validate_csv_extension (arg_fi args);
    validate_rgb_colors (arg_r args) (arg_g args) (arg_b args) ].

(** What [main] does once the checks are through. *)
Definition load_and_issue (args : Args) : M unit :=
  loaded <- get_full_name (arg_fi args) ;;
  let '(names_list, rows_count) := loaded in
  issue_certificates names_list rows_count (arg_x args) (arg_y args) (arg_i args)
    (arg_fi args) (arg_fo args) (arg_s args) (arg_t args)
    (arg_r args) (arg_g args) (arg_b args).

(** Statements run one after the other, then [rest]. *)
Definition in_sequence {B} (checks : list (M bool)) (rest : M B) : M B :=
  foldr (fun check acc => check ;;; acc) rest checks.

(** A run that stops short: it ends in [sys.exit] or an uncaught exception. *)
Definition aborts {A} (r : result A * list event) : Prop :=
  exists ab tr, r = (Abort ab, tr).



(** A computation that does not end in an uncaught [IndexError]. *)
Definition is_index_error {A} (r : result A) : bool :=
  match r with
  | Abort (Uncaught IndexError) => true
  | _ => false
  end.

Definition in_bounds {A} (m : M A) (w : world) : Prop :=
  is_index_error (fst (m w)) = false.

(** A check either returns [True] in silence or aborts having saved nothing. *)
Definition passes_or_aborts (w : world) (check : M bool) : Prop :=
  check w = (Ret true, [])
  \/ exists ab tr, check w = (Abort ab, tr) /\ writes tr = [].

(** ** Data for the examples *)

(** A world to evaluate the program in: one font, one 800x600 template and
    a roster of two people; text is drawn up to a font size of 1000. *)
Definition example_world : world := {|
  listdir_fonts := Some ["FreeMono.ttf"];
  image_dims := fun p => if String.eqb p "cert.png" then Some (800, 600) else None;
  can_decode := fun _ => true;
  font_loads := fun p s => String.eqb p "fonts/FreeMono.ttf" && (0 <? s);
  can_draw := fun _ _ _ fnt _ => fnt_size fnt <? 1000;
  can_save := fun _ => true;
  csv_rows := fun p =>
    if String.eqb p "names.csv"
    then Some [["First name"; "Last name"]; ["Ada"; "Lovelace"]; ["Alan"; "Turing"]]
    else None
|}.

Definition ada : RosterEntry := {| first_name := PStr "Ada"; last_name := PStr "Lovelace" |}.
Definition alan : RosterEntry := {| first_name := PStr "Alan"; last_name := PStr "Turing" |}.


(** A wrong mode and a wrong colour together: the mode check speaks. *)
Definition bad_mode_and_colour : Args := {|
  arg_x := 10; arg_y := 20; arg_i := "cert.png"; arg_fo := "FreeMono.ttf";
  arg_s := 12; arg_fi := "names.csv"; arg_t := "maybe";
  arg_r := 256; arg_g := 0; arg_b := 0
|}.

Definition colour_256 : Args := {|
  arg_x := 10; arg_y := 20; arg_i := "cert.png"; arg_fo := "FreeMono.ttf";
  arg_s := 12; arg_fi := "names.csv"; arg_t := "ON";
  arg_r := 256; arg_g := 0; arg_b := 0
|}.


(** A roster whose header spells the columns in lower case. *)
Definition lower_case_header_world : world := {|
  listdir_fonts := Some ["FreeMono.ttf"];
  image_dims := fun p => if String.eqb p "cert.png" then Some (800, 600) else None;
  can_decode := fun _ => true;
  font_loads := fun p s => String.eqb p "fonts/FreeMono.ttf" && (0 <? s);
  can_draw := fun _ _ _ fnt _ => fnt_size fnt <? 1000;
  can_save := fun _ => true;
  csv_rows := fun _ => Some [["first name"; "last name"]; ["Ada"; "Lovelace"]]
|}.

(** A file that holds a wrong header and two blank lines. *)
Definition header_only_world : world := {|
  listdir_fonts := Some ["FreeMono.ttf"];
  image_dims := fun p => if String.eqb p "cert.png" then Some (800, 600) else None;
  can_decode := fun _ => true;
  font_loads := fun p s => String.eqb p "fonts/FreeMono.ttf" && (0 <? s);
  can_draw := fun _ _ _ fnt _ => fnt_size fnt <? 1000;
  can_save := fun _ => true;
  csv_rows := fun _ => Some [["Name"; "Email"]; []; []]
|}.

(** A world where the PDF of the second person cannot be written. *)
Definition alan_pdf_refused_world : world := {|
  listdir_fonts := Some ["FreeMono.ttf"];
  image_dims := fun p => if String.eqb p "cert.png" then Some (800, 600) else None;
  can_decode := fun _ => true;
  font_loads := fun p s => String.eqb p "fonts/FreeMono.ttf" && (0 <? s);
  can_draw := fun _ _ _ fnt _ => fnt_size fnt <? 1000;
  can_save := fun fp => negb (String.eqb fp "Alan Turing.pdf");
  csv_rows := fun p =>
    if String.eqb p "names.csv"
    then Some [["First name"; "Last name"]; ["Ada"; "Lovelace"]; ["Alan"; "Turing"]]
    else None
|}.

(** Arguments every check accepts in [example_world], in full mode and in
    test mode. *)
Definition full_mode_args : Args := {|
  arg_x := 10; arg_y := 20; arg_i := "cert.png"; arg_fo := "FreeMono.ttf";
  arg_s := 12; arg_fi := "names.csv"; arg_t := "OFF";
  arg_r := 0; arg_g := 0; arg_b := 0
|}.

Definition test_mode_args : Args := {|
  arg_x := 10; arg_y := 20; arg_i := "cert.png"; arg_fo := "FreeMono.ttf";
  arg_s := 12; arg_fi := "names.csv"; arg_t := "ON";
  arg_r := 0; arg_g := 0; arg_b := 0
|}.

(** Test mode with a font size beyond what the renderer of [example_world]
    draws. *)
Definition oversized_font_args : Args := {|
  arg_x := 10; arg_y := 20; arg_i := "cert.png"; arg_fo := "FreeMono.ttf";
  arg_s := 6000; arg_fi := "names.csv"; arg_t := "ON";
  arg_r := 0; arg_g := 0; arg_b := 0
|}.

(** ** Running computations *)

Section Run.
Context {A B : Type}.
Implicit Types (m : M A) (k : A -> M B) (w : world).

Lemma bind_Ret m k w a tr r tr' :
  m w = (Ret a, tr) -> k a w = (r, tr') -> bind m k w = (r, tr ++ tr').
Proof. intros Hm Hk. unfold bind. now rewrite Hm, Hk. Qed.

Lemma bind_Abort m k w ab tr :
  m w = (Abort ab, tr) -> bind m k w = (Abort ab, tr).
Proof. intros Hm. unfold bind. now rewrite Hm. Qed.

Lemma bind_ret a k w : bind (ret a) k w = k a w.
Proof. unfold bind, ret. now destruct (k a w). Qed.

Lemma bind_aborts_l m k w :
  aborts (m w) -> aborts (bind m k w).
Proof. intros (ab & tr & Hm). exists ab, tr. now apply bind_Abort. Qed.

Lemma bind_aborts_r m k w :
  (forall a, aborts (k a w)) -> aborts (bind m k w).
Proof.
  intros Hk. unfold bind. destruct (m w) as [[a|ab] tr]; [|now exists ab, tr].
  destruct (Hk a) as (ab & tr' & ->). now exists ab, (tr ++ tr').
Qed.

End Run.

(** Comparisons of the source, as propositions. *)
Ltac zbool :=
  repeat match goal with
    | H : (_ || _) = true |- _ => apply orb_true_iff in H
    | H : (_ || _) = false |- _ => apply orb_false_iff in H; destruct H
    | H : (_ >? _) = true |- _ => rewrite Z.gtb_ltb in H; apply Z.ltb_lt in H
    | H : (_ >? _) = false |- _ => rewrite Z.gtb_ltb in H; apply Z.ltb_ge in H
    | H : (_ <? _) = true |- _ => apply Z.ltb_lt in H
    | H : (_ <? _) = false |- _ => apply Z.ltb_ge in H
    end.

(** ** Coordinates *)

(** C3: with a template of width [W] and height [H], the coordinate check
    returns [True] exactly when [0 <= x <= W] and [0 <= y <= H], both ends
    included, and otherwise exits with "Invalid (x,y) coordinates". *)
Theorem validate_coordinates_inclusive w x y certification W H :
  image_dims w certification = Some (W, H) ->
  (validate_coordinates x y certification w = (Ret true, [])
   <-> 0 <= x <= W /\ 0 <= y <= H)
  /\ (x < 0 \/ y < 0 \/ x > W \/ y > H ->
      validate_coordinates x y certification w
      = (Abort (SysExit (Some "Invalid (x,y) coordinates")), [])).
Proof.
  intros Himg. unfold validate_coordinates, bind, Image_open. rewrite Himg. simpl.
  destruct ((x >? W) || (x <? 0) || (y <? 0) || (y >? H)) eqn:E; simpl; zbool.
  - split; [split; [discriminate | lia] | reflexivity].
  - split; [split; [lia | reflexivity] | lia].
Qed.

Lemma validate_coordinates_inclusive_witness :
  (validate_coordinates 800 600 "cert.png" example_world = (Ret true, [])
   <-> 0 <= 800 <= 800 /\ 0 <= 600 <= 600)
  /\ (800 < 0 \/ 600 < 0 \/ 800 > 800 \/ 600 > 600 ->
      validate_coordinates 800 600 "cert.png" example_world
      = (Abort (SysExit (Some "Invalid (x,y) coordinates")), [])).
Proof.
  apply (validate_coordinates_inclusive example_world 800 600 "cert.png" 800 600).
  reflexivity.
Defined.

(** ** Colours *)

(** C4: the colour check returns [True] exactly when each of red, green and
    blue lies in [0,255]; otherwise it exits with the message of the first
    channel (red, then green, then blue) that is out of range. *)
Theorem validate_rgb_colors_range w red green blue :
  (validate_rgb_colors red green blue w = (Ret true, [])
   <-> 0 <= red <= 255 /\ 0 <= green <= 255 /\ 0 <= blue <= 255)
  /\ (~ 0 <= red <= 255 ->
      validate_rgb_colors red green blue w
      = (Abort (SysExit (Some "Red must have value of range [0,255]")), []))
  /\ (0 <= red <= 255 -> ~ 0 <= green <= 255 ->
      validate_rgb_colors red green blue w
      = (Abort (SysExit (Some "Green must have value of range [0,255]")), []))
  /\ (0 <= red <= 255 -> 0 <= green <= 255 -> ~ 0 <= blue <= 255 ->
      validate_rgb_colors red green blue w
      = (Abort (SysExit (Some "Blue must have value of range [0,255]")), [])).
Proof.
  unfold validate_rgb_colors, bind.
  destruct ((red >? 255) || (red <? 0)) eqn:Er; simpl; zbool.
  { repeat split; try discriminate; lia. }
  destruct ((green >? 255) || (green <? 0)) eqn:Eg; simpl; zbool.
  { repeat split; try discriminate; lia. }
  destruct ((blue >? 255) || (blue <? 0)) eqn:Eb; simpl; zbool.
  { repeat split; try discriminate; lia. }
  repeat split; lia.
Qed.

(** ** Extensions *)

Module PyStrFacts.
Import PyStr.

Lemma lower_char_idem c : lower_char (lower_char c) = lower_char c.
Proof. destruct c as [[] [] [] [] [] [] [] []]; reflexivity. Qed.

Lemma lower_idem s : lower (lower s) = lower s.
Proof. induction s as [|c s IH]; simpl; [reflexivity|]. now rewrite lower_char_idem, IH. Qed.

Lemma append_cons c s t : String c s +:+ t = String c (s +:+ t).
Proof. reflexivity. Qed.

Lemma take_drop n s : take n s +:+ drop n s = s.
Proof.
  revert s. induction n as [|n IH]; intros [|c s]; try reflexivity.
  cbn [take drop]. rewrite append_cons. f_equal. apply IH.
Qed.

(** The characters that lower to a given lower-case letter are the letter
    and its capital; a character that is no letter lowers only from itself. *)
Lemma lower_char_inv c d :
  lower_char c = d ->
  c = d \/ (N_of_ascii c + 32 = N_of_ascii d /\ 97 <= N_of_ascii d <= 122)%N.
Proof.
  intros <-. unfold lower_char.
  destruct ((65 <=? N_of_ascii c)%N && (N_of_ascii c <=? 90)%N) eqn:E; [|now left].
  right. apply andb_true_iff in E as [E1%N.leb_le E2%N.leb_le].
  rewrite N_ascii_embedding by lia. lia.
Qed.

(** The spellings of a lower-case letter. *)
Lemma lower_char_letter c (d D : ascii) :
  (97 <= N_of_ascii d <= 122)%N ->
  (N_of_ascii D + 32 = N_of_ascii d)%N ->
  lower_char c = d <-> c = d \/ c = D.
Proof.
  intros Hd HD. split.
  - intros [->|[Hc _]]%lower_char_inv; [now left|]. right.
    rewrite <- (ascii_N_embedding c), <- (ascii_N_embedding D). f_equal. lia.
  - intros [->| ->]; unfold lower_char.
    + destruct (N.leb_spec 65 (N_of_ascii d)), (N.leb_spec (N_of_ascii d) 90);
        simpl; try reflexivity; lia.
    + destruct (N.leb_spec 65 (N_of_ascii D)), (N.leb_spec (N_of_ascii D) 90);
        simpl; try lia.
      rewrite HD. apply ascii_N_embedding.
Qed.

(** A character that is no letter lowers only from itself. *)
Lemma lower_char_other c (d : ascii) :
  ~ (97 <= N_of_ascii d <= 122)%N -> lower_char c = d -> c = d.
Proof. intros Hd [->|[_ ?]]%lower_char_inv; [reflexivity | contradiction]. Qed.

(** [s.lower() == "on"]: the four spellings of "on". *)
Lemma lower_on s :
  lower s = "on" <-> s = "on" \/ s = "On" \/ s = "oN" \/ s = "ON".
Proof.
  split.
  - destruct s as [|a [|b [|? ?]]]; try discriminate.
    cbn [lower]. intros [= Ha Hb].
    apply (lower_char_letter a "o" "O") in Ha; [|vm_compute; split; discriminate|reflexivity].
    apply (lower_char_letter b "n" "N") in Hb; [|vm_compute; split; discriminate|reflexivity].
    destruct Ha as [-> | ->], Hb as [-> | ->]; auto.
  - intros [->|[->|[->| ->]]]; reflexivity.
Qed.

(** [e.lower() == ".png"]: a dot and a spelling of "png". *)
Lemma lower_png e :
  lower e = ".png" <->
  exists p n g : ascii,
    e = String "." (String p (String n (String g "")))
    /\ (p = "p" \/ p = "P")%char /\ (n = "n" \/ n = "N")%char
    /\ (g = "g" \/ g = "G")%char.
Proof.
  split.
  - destruct e as [|d [|p [|n [|g [|? ?]]]]]; try discriminate.
    cbn [lower]. intros [= Hd Hp Hn Hg].
    apply lower_char_other in Hd; [subst d | vm_compute; intros [H _]; now apply H].
    apply (lower_char_letter p "p" "P") in Hp; [|vm_compute; split; discriminate|reflexivity].
    apply (lower_char_letter n "n" "N") in Hn; [|vm_compute; split; discriminate|reflexivity].
    apply (lower_char_letter g "g" "G") in Hg; [|vm_compute; split; discriminate|reflexivity].
    eauto 10.
  - intros (p & n & g & -> & [-> | ->] & [-> | ->] & [-> | ->]); reflexivity.
Qed.

Lemma drop_S n s : drop (S n) s = drop 1 (drop n s).
Proof.
  revert s. induction n as [|n IH]; intros [|a s]; try reflexivity.
  change (drop (S (S n)) (String a s)) with (drop (S n) s).
  change (drop (S n) (String a s)) with (drop n s). apply IH.
Qed.

Lemma drop_add n m s : drop (n + m) s = drop m (drop n s).
Proof.
  revert s. induction n as [|n IH]; intros s; [reflexivity|].
  destruct s as [|a s]; [now destruct m|]. apply IH.
Qed.

Lemma occurs_drop c n s : occurs c s = false -> occurs c (drop n s) = false.
Proof.
  revert s. induction n as [|n IH]; intros [|a s] H; try assumption; try reflexivity.
  cbn [occurs] in H. apply orb_false_iff in H as [_ H]. now apply IH.
Qed.

(** [rfind]: either the character does not occur and the result is the
    default, or the result is the index of its last occurrence. *)
Lemma rfind_from_spec s c i last :
  (occurs c s = false /\ rfind_from s c i last = last)
  \/ (exists n t, rfind_from s c i last = i + Z.of_nat n
                  /\ drop n s = String c t /\ occurs c t = false).
Proof.
  revert i last. induction s as [|a s IH]; intros i last; [now left|].
  cbn [rfind_from occurs].
  destruct (IH (i + 1) (if Ascii.eqb a c then i else last))
    as [[Hno Hr]|(n & t & Hr & Hd & Ht)].
  - destruct (Ascii.eqb_spec a c) as [->|Hne].
    + right. exists 0%nat, s. repeat split; [rewrite Hr; simpl; lia | exact Hno].
    + left. split; [exact Hno | exact Hr].
  - right. exists (S n), t. repeat split; [rewrite Hr; lia | exact Hd | exact Ht].
Qed.

End PyStrFacts.

Module OsPathFacts.
Import PyStr PyStrFacts OsPath.

Lemma append_empty s : s +:+ "" = s.
Proof. induction s as [|a s IH]; [reflexivity|]. now rewrite append_cons, IH. Qed.

Lemma skip_leading_dots_some n p filenameIndex dotIndex r :
  skip_leading_dots n p filenameIndex dotIndex = Some r ->
  r = (slice p 0 dotIndex, drop (Z.to_nat dotIndex) p).
Proof.
  revert filenameIndex. induction n as [|n IH]; intros filenameIndex; [discriminate|].
  cbn [skip_leading_dots]. destruct (negb _); [now intros [= <-] | apply IH].
Qed.

(** The two parts of [splitext] make up the path. *)
Lemma splitext_append p : fst (splitext p) +:+ snd (splitext p) = p.
Proof.
  unfold splitext. destruct (rfind p "/" <? rfind p "."); [|apply append_empty].
  destruct (skip_leading_dots _ _ _ _) as [r|] eqn:Hskip; [|apply append_empty].
  apply skip_leading_dots_some in Hskip as ->. cbn [fst snd].
  unfold slice. rewrite Z.sub_0_r. apply take_drop.
Qed.

(** The extension is empty, or a dot followed by characters that are
    neither dots nor slashes. *)
Lemma splitext_ext_shape p :
  snd (splitext p) = ""
  \/ exists t, snd (splitext p) = String "." t
               /\ occurs "." t = false /\ occurs "/" t = false.
Proof.
  unfold splitext, rfind.
  destruct (Z.ltb_spec (rfind_from p "/" 0 (-1)) (rfind_from p "." 0 (-1)))
    as [Hlt|_]; [|now left].
  destruct (skip_leading_dots _ _ _ _) as [r|] eqn:Hskip; [|now left].
  apply skip_leading_dots_some in Hskip as ->. cbn [snd]. right.
  destruct (rfind_from_spec p "." 0 (-1)) as [[_ Hdot]|(n & t & Hdot & Hd & Ht)].
  { destruct (rfind_from_spec p "/" 0 (-1)) as [[_ Hsep]|(m & ? & Hsep & _)]; lia. }
  rewrite Hdot, Z.add_0_l, Nat2Z.id. exists t. split; [exact Hd|]. split; [exact Ht|].
  assert (Hrest : t = drop (S n) p) by (now rewrite drop_S, Hd).
  destruct (rfind_from_spec p "/" 0 (-1)) as [[Hno _]|(m & t' & Hsep & Hd' & Ht')].
  - rewrite Hrest. now apply occurs_drop.
  - assert (Hrest' : t' = drop (S m) p) by (now rewrite drop_S, Hd').
    rewrite Hrest. replace (S n) with (S m + (n - m))%nat by lia.
    rewrite drop_add, <- Hrest'. now apply occurs_drop.
Qed.

Lemma length_append s t :
  String.length (s +:+ t) = (String.length s + String.length t)%nat.
Proof. induction s as [|a s IH]; [reflexivity|]. rewrite append_cons. simpl. now rewrite IH. Qed.

(** Two names with suffixes of one length: equal stems, equal suffixes. *)
Lemma append_suffix_inj s t x y :
  String.length x = String.length y -> s +:+ x = t +:+ y -> s = t /\ x = y.
Proof.
  intros Hlen. revert t. induction s as [|a s IH]; intros [|b t] Heq.
  - now split.
  - exfalso. change ("" +:+ x) with x in Heq. rewrite Heq, append_cons in Hlen.
    simpl in Hlen. rewrite length_append in Hlen. lia.
  - exfalso. change ("" +:+ y) with y in Heq. rewrite <- Heq, append_cons in Hlen.
    simpl in Hlen. rewrite length_append in Hlen. lia.
  - rewrite !append_cons in Heq. injection Heq as -> Heq.
    destruct (IH t Heq) as [-> ->]. now split.
Qed.

End OsPathFacts.

(** The extension is lowered twice; once is enough. *)
Lemma validate_image_extension_run w certification :
  validate_image_extension certification w
  = if String.eqb (PyStr.lower (snd (OsPath.splitext certification))) ".png"
    then (Ret true, [])
    else (Abort (SysExit (Some "Certification is not a .PNG file")), []).
Proof.
  unfold validate_image_extension. rewrite PyStrFacts.lower_idem.
  now destruct (String.eqb _ _).
Qed.

(** C5: the template check returns [True] exactly when the extension of the
    file name ([os.path.splitext]), lowered, is ".png", that is when the
    extension is a dot followed by "png" in any mix of cases, and otherwise
    exits with "Certification is not a .PNG file"; "cert.PNG", "cert.png"
    and "cert.Png" pass. *)
Theorem validate_image_extension_png w certification :
  (validate_image_extension certification w = (Ret true, [])
   <-> PyStr.lower (snd (OsPath.splitext certification)) = ".png")
  /\ (PyStr.lower (snd (OsPath.splitext certification)) = ".png"
      <-> exists p n g : ascii,
            snd (OsPath.splitext certification)
            = String "." (String p (String n (String g "")))
            /\ (p = "p" \/ p = "P")%char /\ (n = "n" \/ n = "N")%char
            /\ (g = "g" \/ g = "G")%char)
  /\ (PyStr.lower (snd (OsPath.splitext certification)) <> ".png" ->
      validate_image_extension certification w
      = (Abort (SysExit (Some "Certification is not a .PNG file")), []))
  /\ validate_image_extension "cert.PNG" w = (Ret true, [])
  /\ validate_image_extension "cert.png" w = (Ret true, [])
  /\ validate_image_extension "cert.Png" w = (Ret true, []).
Proof.
  rewrite validate_image_extension_run.
  destruct (String.eqb_spec (PyStr.lower (snd (OsPath.splitext certification))) ".png")
    as [Heq|Hne].
  - split; [split; [intros _; exact Heq | reflexivity]|].
    split; [apply PyStrFacts.lower_png|].
    split; [intros Hne; now destruct Hne|]. now repeat split.
  - split; [split; [discriminate | intros Heq; now destruct Hne]|].
    split; [apply PyStrFacts.lower_png|].
    split; [reflexivity|]. now repeat split.
Qed.

Example validate_image_extension_jpg w :
  validate_image_extension "cert.jpg" w
  = (Abort (SysExit (Some "Certification is not a .PNG file")), []).
Proof. reflexivity. Qed.

(** A name that is only dots and "png" has no extension: leading dots of
    the last path component are skipped. *)
Example validate_image_extension_dotfile w :
  validate_image_extension "dir/.png" w
  = (Abort (SysExit (Some "Certification is not a .PNG file")), []).
Proof. reflexivity. Qed.

(** A template that passes ends in a spelling of ".png". *)
Lemma validate_image_extension_suffix w certification :
  validate_image_extension certification w = (Ret true, []) ->
  exists root p n g,
    certification = root +:+ String "." (String p (String n (String g "")))
    /\ (p = "p" \/ p = "P")%char /\ (n = "n" \/ n = "N")%char
    /\ (g = "g" \/ g = "G")%char.
Proof.
  rewrite validate_image_extension_run.
  destruct (String.eqb_spec (PyStr.lower (snd (OsPath.splitext certification))) ".png")
    as [Hpass|_]; [intros _ | discriminate].
  apply PyStrFacts.lower_png in Hpass as (p & n & g & Hext & Hp & Hn & Hg).
  exists (fst (OsPath.splitext certification)), p, n, g.
  split; [|now repeat split]. rewrite <- Hext. symmetry. apply OsPathFacts.splitext_append.
Qed.

Example validate_rgb_colors_256 w g b :
  validate_rgb_colors 256 g b w
  = (Abort (SysExit (Some "Red must have value of range [0,255]")), []).
Proof. reflexivity. Qed.

Example validate_rgb_colors_minus_1 w :
  validate_rgb_colors 0 0 (-1) w
  = (Abort (SysExit (Some "Blue must have value of range [0,255]")), []).
Proof. reflexivity. Qed.

(** ** Rendering *)

Lemma full_name_strings f l :
  full_name {| first_name := PStr f; last_name := PStr l |} = f +:+ " " +:+ l.
Proof. reflexivity. Qed.

Lemma list_getitem_lookup {A} (l : list A) (n : nat) (a : A) w :
  l !! n = Some a -> list_getitem l (Z.of_nat n) w = (Ret a, []).
Proof.
  intros Hl. unfold list_getitem.
  destruct (Z.ltb_spec (Z.of_nat n) 0) as [?|_]; [lia|].
  destruct (Z.ltb_spec (Z.of_nat n) 0) as [?|_]; [lia|].
  now rewrite Nat2Z.id, Hl.
Qed.

Lemma list_getitem_nil {A} w : list_getitem (@nil A) 0 w = (Abort (Uncaught IndexError), []).
Proof. reflexivity. Qed.

Lemma full_name_at_lookup names (n : nat) e w :
  names !! n = Some e -> full_name_at names (Z.of_nat n) w = (Ret (full_name e), []).
Proof.
  intros Hl. unfold full_name_at, bind.
  now rewrite (list_getitem_lookup _ _ _ w Hl).
Qed.

Lemma full_name_at_head e rest w :
  full_name_at (e :: rest) 0 w = (Ret (full_name e), []).
Proof. exact (full_name_at_lookup (e :: rest) 0 e w eq_refl). Qed.

Lemma full_name_at_nil w : full_name_at [] 0 w = (Abort (Uncaught IndexError), []).
Proof. reflexivity. Qed.

(** A [for] loop over [range(len(l))] whose every iteration returns: the
    events of the iterations, in order. *)
Lemma for_each_seq {A} (body : Z -> M unit) (l : list A) (out : A -> list event) w :
  (forall n a, l !! n = Some a -> body (Z.of_nat n) w = (Ret tt, out a)) ->
  forall m k, (k + m = length l)%nat ->
    for_each (map Z.of_nat (seq k m)) body w = (Ret tt, flat_map out (drop k l)).
Proof.
  intros Hbody. induction m as [|m IH]; intros k Hk.
  - rewrite drop_ge by lia. reflexivity.
  - destruct (lookup_lt_is_Some_2 l k) as [a Ha]; [lia|].
    rewrite (drop_S _ _ _ Ha). cbn [seq map for_each flat_map].
    erewrite bind_Ret; [reflexivity | now apply Hbody | apply IH; lia].
Qed.

Lemma for_each_range {A} (body : Z -> M unit) (l : list A) (out : A -> list event) w :
  (forall n a, l !! n = Some a -> body (Z.of_nat n) w = (Ret tt, out a)) ->
  for_each (range (Z.of_nat (length l))) body w = (Ret tt, flat_map out l).
Proof.
  intros Hbody. unfold range. rewrite Nat2Z.id.
  now rewrite (for_each_seq body l out w Hbody (length l) 0%nat).
Qed.

Section Certificates.
Variables (x y : Z) (certification font_name : string) (font_size : Z).
Variables (red green blue : Z) (size : Z * Z).

Local Abbreviation pair_of :=
  (entry_pair x y certification font_name font_size red green blue size).

Lemma entry_pairs_length names :
  length (writes (flat_map pair_of names)) = (2 * length names)%nat.
Proof.
  induction names as [|e names IH]; [reflexivity|].
  cbn [flat_map entry_pair app length]. unfold writes in *.
  rewrite !filter_cons_True by exact I. cbn [length]. lia.
Qed.

Lemma entry_pairs_names names :
  omap saved_name (flat_map pair_of names) = flat_map entry_files names.
Proof.
  induction names as [|e names IH]; [reflexivity|].
  cbn [flat_map entry_pair entry_files app]. now rewrite <- IH.
Qed.

Lemma elem_of_entry_files f names :
  f ∈ flat_map entry_files names ->
  exists e, e ∈ names
            /\ (f = full_name e +:+ ".pdf" \/ f = full_name e +:+ ".PNG").
Proof.
  induction names as [|e names IH]; cbn [flat_map entry_files app].
  - intros []%elem_of_nil.
  - rewrite !elem_of_cons. intros [->|[->|Hin]].
    + exists e. split; [now left | now left].
    + exists e. split; [now left | now right].
    + destruct (IH Hin) as (e' & He' & Hf). exists e'. split; [now right | exact Hf].
Qed.

(** Entries with pairwise different names give pairwise different files. *)
Lemma entry_files_NoDup names :
  NoDup (map full_name names) -> NoDup (flat_map entry_files names).
Proof.
  induction names as [|e names IH]; cbn [map flat_map entry_files app]; intros Hnd.
  { constructor. }
  apply NoDup_cons in Hnd as [Hfresh Hnd].
  assert (Hother : forall e' ext ext', e' ∈ names ->
            String.length ext = String.length ext' ->
            full_name e +:+ ext <> full_name e' +:+ ext').
  { intros e' ext ext' He' Hlen [Heq _]%OsPathFacts.append_suffix_inj; [|exact Hlen].
    apply Hfresh. rewrite Heq.
    change (map full_name names) with (full_name <$> names).
    now apply list_elem_of_fmap_2. }
  apply NoDup_cons. split.
  - rewrite elem_of_cons. intros [Heq|Hin].
    + apply OsPathFacts.append_suffix_inj in Heq as [_ [=]]; reflexivity.
    + apply elem_of_entry_files in Hin as (e' & He' & [Hf|Hf]);
        now apply (Hother e' _ _ He') in Hf.
  - apply NoDup_cons. split; [|now apply IH].
    intros Hin. apply elem_of_entry_files in Hin as (e' & He' & [Hf|Hf]);
      now apply (Hother e' _ _ He') in Hf.
Qed.

End Certificates.

(** The function, by its two blocks. *)
Lemma issue_certificates_blocks names number_of_rows x y certification csv_file
    font_name font_size mode red green blue :
  issue_certificates names number_of_rows x y certification csv_file font_name
    font_size mode red green blue
  = ((if String.eqb (PyStr.lower mode) "on"
      then test_mode_block names x y certification font_name font_size red green blue
      else ret tt) ;;;
     for_each (range number_of_rows)
       (full_mode_body names x y certification font_name font_size red green blue) ;;;
     sys_exit (Some "Certificates created successfully")).
Proof. reflexivity. Qed.

(** The test-mode block never falls through to the loop. *)
Lemma test_mode_block_aborts w names x y certification font_name font_size
    red green blue :
  aborts (test_mode_block names x y certification font_name font_size
            red green blue w).
Proof.
  unfold test_mode_block. repeat (apply bind_aborts_r; intros ?). now eexists _, _.
Qed.

(** In test mode the function is its first block. *)
Lemma issue_certificates_on w names number_of_rows x y certification csv_file
    font_name font_size mode red green blue :
  PyStr.lower mode = "on" ->
  issue_certificates names number_of_rows x y certification csv_file font_name
    font_size mode red green blue w
  = test_mode_block names x y certification font_name font_size red green blue w.
Proof.
  intros Hmode. rewrite issue_certificates_blocks, Hmode.
  change (String.eqb "on" "on") with true. cbv iota.
  destruct (test_mode_block_aborts w names x y certification font_name font_size
              red green blue) as (ab & tr & Hab).
  rewrite (bind_Abort _ _ _ _ _ Hab). now rewrite Hab.
Qed.

(** In full mode it is the loop and the closing exit. *)
Lemma issue_certificates_off w names number_of_rows x y certification csv_file
    font_name font_size mode red green blue :
  PyStr.lower mode <> "on" ->
  issue_certificates names number_of_rows x y certification csv_file font_name
    font_size mode red green blue w
  = (for_each (range number_of_rows)
       (full_mode_body names x y certification font_name font_size red green blue) ;;;
     sys_exit (Some "Certificates created successfully")) w.
Proof.
  intros Hmode. rewrite issue_certificates_blocks.
  destruct (String.eqb_spec (PyStr.lower mode) "on") as [Heq|_]; [now destruct Hmode|].
  now rewrite bind_ret.
Qed.

Section Render.
Variables (w : world) (names : list RosterEntry).
Variables (x y : Z) (certification font_name : string) (font_size : Z).
Variables (red green blue : Z) (size : Z * Z).
Hypothesis Himg : image_dims w certification = Some size.
Hypothesis Hdecode : can_decode w certification = true.
Hypothesis Hfont : font_loads w ("fonts/" +:+ font_name) font_size = true.

Local Abbreviation composite_of :=
  (composite x y certification font_name font_size red green blue size).
Local Abbreviation draws_text :=
  (draws x y font_name font_size red green blue size w).

(** Up to the look-up of the name, a render needs the template and the font. *)
Ltac open_template :=
  unfold bind, Image_open, Image_convert, ImageFont_truetype, ImageDraw_text, Image_save;
  rewrite Himg; cbv beta iota; rewrite Hdecode; cbn [image_size_of]; rewrite Hfont.

(** The test-mode block, once the template and the font are there: what
    the roster, the draw and the two saves make of it. *)
Lemma test_mode_block_run :
  test_mode_block names x y certification font_name font_size red green blue w
  = match names with
    | [] => (Abort (Uncaught IndexError), [])
    | e :: _ =>
        if draws_text (full_name e) then
          if can_save w "TEST.pdf" then
            if can_save w "TEST.png" then
              (Abort (SysExit (Some "TEST certificates created successfully")),
               test_pair x y certification font_name font_size red green blue size e)
            else
              (Abort (Uncaught (Failed (SaveImage "TEST.png"))),
               [Save (Converted "RGB" (composite_of (full_name e)))
                     "TEST.pdf" "PDF" [("resoultion", 100 # 1)]])
          else (Abort (Uncaught (Failed (SaveImage "TEST.pdf"))), [])
        else (Abort (Uncaught (Failed (DrawText (x, y) (full_name e)))), [])
    end.
Proof.
  unfold test_mode_block. open_template.
  destruct names as [|e rest]; [now rewrite full_name_at_nil|].
  rewrite full_name_at_head. cbv beta iota. unfold draws.
  destruct (can_draw w _ _ _ _ _); [cbv beta iota|reflexivity].
  destruct (can_save w "TEST.pdf"); [cbv beta iota|reflexivity].
  now destruct (can_save w "TEST.png").
Qed.

(** One iteration of the loop of full mode on an entry of the roster. *)
Lemma full_mode_body_at (n : nat) e :
  names !! n = Some e ->
  full_mode_body names x y certification font_name font_size red green blue
    (Z.of_nat n) w
  = if draws_text (full_name e) then
      if can_save w (full_name e +:+ ".pdf") then
        if can_save w (full_name e +:+ ".PNG") then
          (Ret tt, entry_pair x y certification font_name font_size red green blue size e)
        else
          (Abort (Uncaught (Failed (SaveImage (full_name e +:+ ".PNG")))),
           [Save (Converted "RGB" (composite_of (full_name e)))
                 (full_name e +:+ ".pdf") "PDF" [("resoultion", 100 # 1)]])
      else (Abort (Uncaught (Failed (SaveImage (full_name e +:+ ".pdf")))), [])
    else (Abort (Uncaught (Failed (DrawText (x, y) (full_name e)))), []).
Proof.
  intros Hn. unfold full_mode_body. open_template.
  rewrite !(full_name_at_lookup names n e w Hn). cbv beta iota. unfold draws.
  destruct (can_draw w _ _ _ _ _); [cbv beta iota|reflexivity].
  destruct (can_save w (full_name e +:+ ".pdf")); [cbv beta iota|reflexivity].
  now destruct (can_save w (full_name e +:+ ".PNG")).
Qed.

(** One iteration of the loop, when the world lets it through. *)
Lemma full_mode_body_run (n : nat) e :
  names !! n = Some e ->
  draws_text (full_name e) = true ->
  can_save w (full_name e +:+ ".pdf") = true ->
  can_save w (full_name e +:+ ".PNG") = true ->
  full_mode_body names x y certification font_name font_size red green blue
    (Z.of_nat n) w
  = (Ret tt, entry_pair x y certification font_name font_size red green blue size e).
Proof.
  intros Hn Hdraw Hpdf Hpng. rewrite (full_mode_body_at n e Hn).
  now rewrite Hdraw, Hpdf, Hpng.
Qed.

(** The whole loop over the roster, when every entry goes through. *)
Lemma full_mode_loop_run :
  (forall e, e ∈ names ->
     draws_text (full_name e) = true
     /\ can_save w (full_name e +:+ ".pdf") = true
     /\ can_save w (full_name e +:+ ".PNG") = true) ->
  for_each (range (Z.of_nat (length names)))
    (full_mode_body names x y certification font_name font_size red green blue) w
  = (Ret tt,
     flat_map (entry_pair x y certification font_name font_size red green blue size)
              names).
Proof.
  intros Hgo. apply for_each_range. intros n e Hn.
  destruct (Hgo e) as (Hdraw & Hpdf & Hpng); [eapply list_elem_of_lookup_2, Hn|].
  now apply full_mode_body_run.
Qed.

End Render.

(** C1: in test mode ([mode.lower() == "on"]) with a roster that has a
    first entry, when the template opens and decodes, the font loads, the
    name can be drawn and the two files can be written,
    [issue_certificates] saves exactly two files, "TEST.pdf" and
    "TEST.png", both showing the first entry's "first last" text, and
    exits with "TEST certificates created successfully"; the other entries
    and the row count play no part. *)
Theorem issue_certificates_test_mode w e rest number_of_rows x y certification
    csv_file font_name font_size mode red green blue size :
  PyStr.lower mode = "on" ->
  image_dims w certification = Some size ->
  can_decode w certification = true ->
  font_loads w ("fonts/" +:+ font_name) font_size = true ->
  draws x y font_name font_size red green blue size w (full_name e) = true ->
  can_save w "TEST.pdf" = true ->
  can_save w "TEST.png" = true ->
  issue_certificates (e :: rest) number_of_rows x y certification csv_file
    font_name font_size mode red green blue w
  = (Abort (SysExit (Some "TEST certificates created successfully")),
     test_pair x y certification font_name font_size red green blue size e).
Proof.
  intros Hmode Himg Hdecode Hfont Hdraw Hpdf Hpng.
  rewrite (issue_certificates_on w _ _ _ _ _ _ _ _ _ _ _ _ Hmode).
  rewrite (test_mode_block_run w (e :: rest) x y certification font_name font_size
             red green blue size Himg Hdecode Hfont).
  now rewrite Hdraw, Hpdf, Hpng.
Qed.

Lemma issue_certificates_test_mode_witness :
  issue_certificates [ada; alan] 2 10 20 "cert.png" "names.csv"
    "FreeMono.ttf" 12 "On" 0 0 0 example_world
  = (Abort (SysExit (Some "TEST certificates created successfully")),
     test_pair 10 20 "cert.png" "FreeMono.ttf" 12 0 0 0 (800, 600) ada).
Proof.
  apply (issue_certificates_test_mode example_world ada [alan] 2 10 20 "cert.png"
           "names.csv" "FreeMono.ttf" 12 "On" 0 0 0 (800, 600));
    reflexivity.
Defined.

(** C2: in full mode, with a roster of N entries (and the row count N that
    the loader hands over), when the template opens and decodes, the font
    loads and every entry's name can be drawn and its two files written,
    [issue_certificates] goes through the entries in order and saves, for
    each, "{first} {last}.pdf" and "{first} {last}.PNG": 2N saves in all,
    then it exits with "Certificates created successfully".  The 2N file
    names are pairwise different when the entries' names are. *)
Theorem issue_certificates_full_mode w names x y certification csv_file font_name
    font_size mode red green blue size :
  PyStr.lower mode <> "on" ->
  image_dims w certification = Some size ->
  can_decode w certification = true ->
  font_loads w ("fonts/" +:+ font_name) font_size = true ->
  (forall e, e ∈ names ->
     draws x y font_name font_size red green blue size w (full_name e) = true
     /\ can_save w (full_name e +:+ ".pdf") = true
     /\ can_save w (full_name e +:+ ".PNG") = true) ->
  issue_certificates names (Z.of_nat (length names)) x y certification csv_file
    font_name font_size mode red green blue w
  = (Abort (SysExit (Some "Certificates created successfully")),
     flat_map (entry_pair x y certification font_name font_size red green blue size)
              names)
  /\ length (writes (snd (issue_certificates names (Z.of_nat (length names)) x y
                           certification csv_file font_name font_size mode
                           red green blue w)))
     = (2 * length names)%nat
  /\ omap saved_name (snd (issue_certificates names (Z.of_nat (length names)) x y
                            certification csv_file font_name font_size mode
                            red green blue w))
     = flat_map (fun e => [full_name e +:+ ".pdf"; full_name e +:+ ".PNG"]) names
  /\ (forall f l, full_name {| first_name := PStr f; last_name := PStr l |}
                  = f +:+ " " +:+ l)
  /\ (NoDup (map full_name names) ->
      NoDup (flat_map (fun e => [full_name e +:+ ".pdf"; full_name e +:+ ".PNG"])
                      names)).
Proof.
  intros Hmode Himg Hdecode Hfont Hgo.
  assert (Hrun : issue_certificates names (Z.of_nat (length names)) x y certification
                   csv_file font_name font_size mode red green blue w
                 = (Abort (SysExit (Some "Certificates created successfully")),
                    flat_map (entry_pair x y certification font_name font_size
                                red green blue size) names)).
  { rewrite (issue_certificates_off w _ _ _ _ _ _ _ _ _ _ _ _ Hmode).
    erewrite bind_Ret;
      [ | now apply (full_mode_loop_run w names x y certification font_name font_size
                       red green blue size) | reflexivity ].
    now rewrite app_nil_r. }
  rewrite Hrun. cbn [snd].
  split; [reflexivity|]. split; [apply entry_pairs_length|].
  split; [apply entry_pairs_names|]. split; [reflexivity | apply entry_files_NoDup].
Qed.

Lemma issue_certificates_full_mode_witness :
  issue_certificates [ada; alan] 2 10 20 "cert.png" "names.csv" "FreeMono.ttf" 12
    "OFF" 0 0 0 example_world
  = (Abort (SysExit (Some "Certificates created successfully")),
     flat_map (entry_pair 10 20 "cert.png" "FreeMono.ttf" 12 0 0 0 (800, 600))
              [ada; alan]).
Proof.
  apply (issue_certificates_full_mode example_world [ada; alan] 10 20 "cert.png"
           "names.csv" "FreeMono.ttf" 12 "OFF" 0 0 0 (800, 600)).
  - discriminate.
  - reflexivity.
  - reflexivity.
  - reflexivity.
  - intros e _. repeat split; reflexivity.
Defined.

(** C9: in test mode the entry at index 0 is looked up.  With the template
    and the font at hand: for a roster that has a first entry the look-up
    is in bounds, and the render goes through to the two saves and the
    success exit when the name can be drawn and the files written; for the
    empty roster the look-up raises [IndexError], nothing is saved and
    there is no success exit. *)
Theorem issue_certificates_test_mode_needs_entry w names number_of_rows x y
    certification csv_file font_name font_size mode red green blue size :
  PyStr.lower mode = "on" ->
  image_dims w certification = Some size ->
  can_decode w certification = true ->
  font_loads w ("fonts/" +:+ font_name) font_size = true ->
  can_save w "TEST.pdf" = true ->
  can_save w "TEST.png" = true ->
  match names with
  | e :: _ =>
      list_getitem names 0 w = (Ret e, [])
      /\ (draws x y font_name font_size red green blue size w (full_name e) = true ->
          fst (issue_certificates names number_of_rows x y certification csv_file
                 font_name font_size mode red green blue w)
          = Abort (SysExit (Some "TEST certificates created successfully"))
          /\ length (writes (snd (issue_certificates names number_of_rows x y
                                    certification csv_file font_name font_size mode
                                    red green blue w))) = 2%nat)
  | [] =>
      list_getitem names 0 w = (Abort (Uncaught IndexError), [])
      /\ issue_certificates names number_of_rows x y certification csv_file
           font_name font_size mode red green blue w
         = (Abort (Uncaught IndexError), [])
  end.
Proof.
  intros Hmode Himg Hdecode Hfont Hpdf Hpng.
  rewrite (issue_certificates_on w _ _ _ _ _ _ _ _ _ _ _ _ Hmode).
  rewrite (test_mode_block_run w names x y certification font_name font_size
             red green blue size Himg Hdecode Hfont).
  destruct names as [|e rest]; [now split|].
  split; [reflexivity|]. intros Hdraw. rewrite Hdraw, Hpdf, Hpng. now split.
Qed.

Lemma issue_certificates_test_mode_needs_entry_witness :
  (list_getitem [ada; alan] 0 example_world = (Ret ada, [])
   /\ fst (issue_certificates [ada; alan] 2 10 20 "cert.png" "names.csv"
             "FreeMono.ttf" 12 "ON" 0 0 0 example_world)
      = Abort (SysExit (Some "TEST certificates created successfully"))
   /\ length (writes (snd (issue_certificates [ada; alan] 2 10 20 "cert.png"
                             "names.csv" "FreeMono.ttf" 12 "ON" 0 0 0
                             example_world))) = 2%nat)
  /\ (list_getitem (@nil RosterEntry) 0 example_world
      = (Abort (Uncaught IndexError), [])
      /\ issue_certificates [] 0 10 20 "cert.png" "names.csv" "FreeMono.ttf" 12 "ON"
           0 0 0 example_world
         = (Abort (Uncaught IndexError), [])).
Proof.
  split.
  - assert (Hfirst := issue_certificates_test_mode_needs_entry example_world
                        [ada; alan] 2 10 20 "cert.png" "names.csv" "FreeMono.ttf" 12
                        "ON" 0 0 0 (800, 600) eq_refl eq_refl eq_refl eq_refl eq_refl
                        eq_refl).
    hnf in Hfirst. destruct Hfirst as [Hget Hrun].
    split; [exact Hget | apply Hrun; reflexivity].
  - apply (issue_certificates_test_mode_needs_entry example_world [] 0 10 20
             "cert.png" "names.csv" "FreeMono.ttf" 12 "ON" 0 0 0 (800, 600));
      reflexivity.
Defined.

(** In test mode with the empty roster nothing is ever saved and the run
    never ends in [sys.exit], whatever the world. *)
Lemma issue_certificates_test_mode_empty w number_of_rows x y certification csv_file
    font_name font_size mode red green blue :
  PyStr.lower mode = "on" ->
  exists e tr,
    issue_certificates [] number_of_rows x y certification csv_file font_name
      font_size mode red green blue w = (Abort (Uncaught e), tr)
    /\ writes tr = [].
Proof.
  intros Hmode. rewrite (issue_certificates_on w _ _ _ _ _ _ _ _ _ _ _ _ Hmode).
  unfold test_mode_block, bind, Image_open, Image_convert, ImageFont_truetype.
  destruct (image_dims w certification); [cbv beta iota|eauto].
  destruct (can_decode w certification); [cbv beta iota|eauto].
  destruct (font_loads w _ font_size); [|eauto].
  rewrite full_name_at_nil. eauto.
Qed.

(** C10: in full mode with the empty roster and row count 0,
    [issue_certificates] saves nothing and exits with "Certificates created
    successfully". *)
Theorem issue_certificates_full_mode_empty w x y certification csv_file font_name
    font_size mode red green blue :
  PyStr.lower mode <> "on" ->
  issue_certificates [] 0 x y certification csv_file font_name font_size mode
    red green blue w
  = (Abort (SysExit (Some "Certificates created successfully")), []).
Proof.
  intros Hmode. unfold issue_certificates.
  destruct (String.eqb_spec (PyStr.lower mode) "on") as [Heq|_]; [now destruct Hmode|].
  reflexivity.
Qed.

Lemma issue_certificates_full_mode_empty_witness :
  issue_certificates [] 0 10 20 "missing.png" "names.csv" "NoSuchFont.ttf" 12 "off"
    0 0 0 example_world
  = (Abort (SysExit (Some "Certificates created successfully")), []).
Proof.
  apply (issue_certificates_full_mode_empty example_world 10 20 "missing.png"
           "names.csv" "NoSuchFont.ttf" 12 "off" 0 0 0).
  discriminate.
Defined.

(** C8 (as the code has it): the PNG is saved with the keyword
    [resolution=100.0]; the PDF is saved with the keyword [resoultion=100.0],
    so its save carries no [resolution] parameter.  Both modes. *)
Theorem pdf_save_has_no_resolution :
  (exists pdf png pdf_params png_params,
     snd (issue_certificates [ada] 1 10 20 "cert.png" "names.csv" "FreeMono.ttf" 12
            "ON" 0 0 0 example_world)
     = [Save pdf "TEST.pdf" "PDF" pdf_params; Save png "TEST.png" "PNG" png_params]
     /\ kwarg "resolution" pdf_params = None
     /\ kwarg "resoultion" pdf_params = Some (100 # 1)
     /\ kwarg "resolution" png_params = Some (100 # 1))
  /\ (exists pdf png pdf_params png_params,
     snd (issue_certificates [ada] 1 10 20 "cert.png" "names.csv" "FreeMono.ttf" 12
            "OFF" 0 0 0 example_world)
     = [Save pdf "Ada Lovelace.pdf" "PDF" pdf_params;
        Save png "Ada Lovelace.PNG" "PNG" png_params]
     /\ kwarg "resolution" pdf_params = None
     /\ kwarg "resoultion" pdf_params = Some (100 # 1)
     /\ kwarg "resolution" png_params = Some (100 # 1)).
Proof. split; do 4 eexists; (split; [reflexivity|]); now repeat split. Qed.

(** ** The roster *)

Module CsvFacts.
Import Csv.

Lemma foldl_put_other (pairs : list (string * string)) (d0 : dict) (name : string) :
  name ∉ pairs.*1 -> fields (foldl put d0 pairs) !! name = fields d0 !! name.
Proof.
  revert d0. induction pairs as [|p ps IH]; intros d0 Hnot; [reflexivity|].
  cbn [foldl]. rewrite IH.
  - cbn [put fields]. rewrite lookup_insert_ne; [reflexivity|].
    intros Heq. apply Hnot. rewrite <- Heq. apply list_elem_of_here.
  - intros Hin. apply Hnot. now apply list_elem_of_further.
Qed.

(** A key that [zip] pairs with a value ends up bound to the value of one
    of its pairs. *)
Lemma foldl_put_some (pairs : list (string * string)) (d0 : dict) (name : string) :
  (exists j v, pairs !! j = Some (name, v)) ->
  exists j v, pairs !! j = Some (name, v)
              /\ fields (foldl put d0 pairs) !! name = Some (PStr v).
Proof.
  revert d0. induction pairs as [|p ps IH]; intros d0 (j & v & Hj).
  { destruct j; discriminate. }
  cbn [foldl]. destruct (decide (name ∈ ps.*1)) as [Hin|Hnot].
  - apply list_elem_of_fmap in Hin as ([k' v'] & -> & Hin).
    apply list_elem_of_lookup_1 in Hin as [j' Hj'].
    destruct (IH (put d0 p)) as (j'' & v'' & Hl & Hd); [eauto|].
    exists (S j''), v''. split; [exact Hl | exact Hd].
  - destruct j as [|j].
    + injection Hj as ->. exists 0%nat, v. split; [reflexivity|].
      rewrite foldl_put_other by exact Hnot. cbn [put fields]. apply lookup_insert_eq.
    + exfalso. apply Hnot. apply list_elem_of_fmap. exists (name, v).
      split; [reflexivity|]. eapply list_elem_of_lookup_2, Hj.
Qed.

Lemma foldl_blank (keys : list string) (d0 : dict) (name : string) :
  fields (foldl blank d0 keys) !! name
  = if decide (name ∈ keys) then Some PNone else fields d0 !! name.
Proof.
  revert d0. induction keys as [|k ks IH]; intros d0; [reflexivity|].
  cbn [foldl]. rewrite IH. destruct (decide (name ∈ ks)) as [Hin|Hnot].
  - rewrite decide_True; [reflexivity | now apply list_elem_of_further].
  - cbn [blank fields]. destruct (decide (k = name)) as [->|Hne].
    + rewrite lookup_insert_eq. rewrite decide_True; [reflexivity | apply list_elem_of_here].
    + rewrite lookup_insert_ne by congruence.
      rewrite decide_False; [reflexivity|].
      intros [Heq|Hin]%elem_of_cons; [congruence | contradiction].
Qed.

(** What a [DictReader] row holds under a field name of the header: the
    cell of a column with that name. *)
Lemma DictReader_row_lookup (fieldnames row : list string) (name : string) :
  name ∈ fieldnames ->
  exists i, fieldnames !! i = Some name
            /\ fields (DictReader_row fieldnames row) !! name = Some (cell row i).
Proof.
  intros Hin. unfold DictReader_row, dict_of_zip.
  destruct (decide (name ∈ drop (length row) fieldnames)) as [Hlate|Hearly].
  - (* a column the row does not reach *)
    pose proof Hlate as Hl.
    apply list_elem_of_lookup_1 in Hl as [j Hj]. rewrite lookup_drop in Hj.
    exists (length row + j)%nat. split; [exact Hj|].
    pose proof (lookup_lt_Some _ _ _ Hj) as Hlt.
    destruct (Nat.ltb_spec (length fieldnames) (length row)) as [?|_]; [lia|].
    destruct (Nat.ltb_spec (length row) (length fieldnames)) as [_|?]; [|lia].
    rewrite foldl_blank, decide_True by exact Hlate.
    unfold cell. rewrite lookup_ge_None_2 by lia. reflexivity.
  - (* a column within the row *)
    apply list_elem_of_lookup_1 in Hin as [i Hi].
    assert (Hlt : (i < length row)%nat).
    { destruct (Nat.lt_ge_cases i (length row)) as [?|Hge]; [assumption|].
      exfalso. apply Hearly. apply list_elem_of_lookup.
      exists (i - length row)%nat. rewrite lookup_drop.
      now replace (length row + (i - length row))%nat with i by lia. }
    destruct (lookup_lt_is_Some_2 row i Hlt) as [v Hv].
    destruct (foldl_put_some (zip fieldnames row) empty_dict name) as (j & v' & Hj & Hd).
    { exists i, v. apply lookup_zip_with_Some. eauto. }
    apply lookup_zip_with_Some in Hj as (k' & v'' & [= <- <-] & Hjf & Hjr).
    exists j. split; [exact Hjf|].
    unfold cell. rewrite Hjr.
    destruct (length fieldnames <? length row)%nat.
    { exact Hd. }
    destruct (length row <? length fieldnames)%nat; [|exact Hd].
    now rewrite foldl_blank, decide_False.
Qed.

End CsvFacts.

(** The loop of [get_full_name] under a header that names both columns:
    one entry appended and one counted per row. *)
Lemma get_full_name_loop_rows w fieldnames :
  "First name" ∈ fieldnames -> "Last name" ∈ fieldnames ->
  forall rows names number_of_rows,
    get_full_name_loop (map (Csv.DictReader_row fieldnames) rows) names number_of_rows w
    = (Ret (names ++ map (entry_of_row fieldnames) rows,
            number_of_rows + Z.of_nat (length rows)), []).
Proof.
  intros Hfirst Hlast. induction rows as [|row rows IH]; intros names number_of_rows.
  - cbn [map get_full_name_loop length]. rewrite app_nil_r, Z.add_0_r. reflexivity.
  - cbn [map get_full_name_loop length].
    destruct (CsvFacts.DictReader_row_lookup fieldnames row _ Hfirst) as (i & _ & Hi).
    destruct (CsvFacts.DictReader_row_lookup fieldnames row _ Hlast) as (j & _ & Hj).
    unfold bind, Csv.dict_getitem. rewrite Hi. cbn [ret]. rewrite Hj. cbn [ret].
    rewrite IH. cbn [app]. rewrite <- app_assoc. cbn [app].
    unfold entry_of_row at 2. rewrite Hi, Hj. cbn [default].
    replace (number_of_rows + 1 + Z.of_nat (length rows))
      with (number_of_rows + Z.of_nat (S (length rows))) by lia.
    reflexivity.
Qed.

(** C6: for a roster file whose first row names the columns "First name" and
    "Last name" and which has N rows of data after it (blank lines are not
    rows of data), [get_full_name] returns N entries and the count N, and the
    k-th entry holds, for each of the two names, the k-th row's cell in a
    column of that name ([None] when the row stops before that column). *)
Theorem get_full_name_entries w csv_file fieldnames rest :
  csv_rows w csv_file = Some (fieldnames :: rest) ->
  "First name" ∈ fieldnames ->
  "Last name" ∈ fieldnames ->
  exists names,
    get_full_name csv_file w = (Ret (names, Z.of_nat (length names)), [])
    /\ length names = length (Csv.data_rows rest)
    /\ forall k row, Csv.data_rows rest !! k = Some row ->
         exists e i j,
           names !! k = Some e
           /\ fieldnames !! i = Some "First name"
           /\ fieldnames !! j = Some "Last name"
           /\ first_name e = cell row i
           /\ last_name e = cell row j.
Proof.
  intros Hfile Hfirst Hlast.
  exists (map (entry_of_row fieldnames) (Csv.data_rows rest)).
  split; [|split].
  - unfold get_full_name, bind, open_csv. rewrite Hfile. cbn [Csv.DictReader].
    rewrite (get_full_name_loop_rows w fieldnames Hfirst Hlast).
    now rewrite length_map.
  - apply length_map.
  - intros k row Hk.
    destruct (CsvFacts.DictReader_row_lookup fieldnames row _ Hfirst) as (i & Hfi & Hi).
    destruct (CsvFacts.DictReader_row_lookup fieldnames row _ Hlast) as (j & Hfj & Hj).
    exists (entry_of_row fieldnames row), i, j.
    split; [|split; [exact Hfi | split; [exact Hfj|]]].
    + change (map (entry_of_row fieldnames) (Csv.data_rows rest))
        with (entry_of_row fieldnames <$> Csv.data_rows rest).
      now rewrite list_lookup_fmap, Hk.
    + unfold entry_of_row. cbn [first_name last_name]. now rewrite Hi, Hj.
Qed.

Lemma get_full_name_entries_witness :
  exists names,
    get_full_name "names.csv" example_world = (Ret (names, Z.of_nat (length names)), [])
    /\ length names = length (Csv.data_rows [["Ada"; "Lovelace"]; ["Alan"; "Turing"]])
    /\ forall k row,
         Csv.data_rows [["Ada"; "Lovelace"]; ["Alan"; "Turing"]] !! k = Some row ->
         exists e i j,
           names !! k = Some e
           /\ ["First name"; "Last name"] !! i = Some "First name"
           /\ ["First name"; "Last name"] !! j = Some "Last name"
           /\ first_name e = cell row i
           /\ last_name e = cell row j.
Proof.
  apply (get_full_name_entries example_world "names.csv" ["First name"; "Last name"]
           [["Ada"; "Lovelace"]; ["Alan"; "Turing"]]).
  - reflexivity.
  - apply list_elem_of_here.
  - apply list_elem_of_further, list_elem_of_here.
Defined.

Example get_full_name_example :
  get_full_name "names.csv" example_world = (Ret ([ada; alan], 2), []).
Proof. reflexivity. Qed.

(** Rows of data with no blank line among them are all kept. *)
Lemma data_rows_all rest : Forall (fun row => row <> []) rest -> Csv.data_rows rest = rest.
Proof.
  unfold Csv.data_rows. induction 1 as [|row rest Hrow _ IH]; [reflexivity|].
  rewrite filter_cons_True by exact Hrow. now rewrite IH.
Qed.

(** ** Validation before rendering *)

Lemma main_in_sequence args : main args = in_sequence (validators args) (load_and_issue args).
Proof. reflexivity. Qed.

Lemma for_each_print l w : for_each l (fun fonts => print fonts) w = (Ret tt, map Print l).
Proof.
  induction l as [|a l IH]; [reflexivity|].
  cbn [for_each map]. erewrite bind_Ret; [ | reflexivity | exact IH]. reflexivity.
Qed.

Lemma writes_prints l tr : writes (map Print l ++ tr) = writes tr.
Proof.
  unfold writes. induction l as [|a l IH]; [reflexivity|].
  cbn [map app]. rewrite filter_cons_False; [exact IH|]. intros [].
Qed.

Lemma validate_test_mode_outcome w test_mode : passes_or_aborts w (validate_test_mode test_mode).
Proof.
  unfold passes_or_aborts, validate_test_mode, bind.
  destruct (_ && _); [right | left]; eauto.
Qed.

Lemma validate_font_outcome w font_name : passes_or_aborts w (validate_font font_name).
Proof.
  unfold passes_or_aborts, validate_font, bind, os_listdir_fonts.
  destruct (listdir_fonts w) as [fonts_list|]; [|right; eauto].
  destruct (bool_decide (font_name ∉ fonts_list)); [right | left; reflexivity].
  cbn [print]. rewrite for_each_print. cbn [sys_exit].
  do 2 eexists. split; [reflexivity|].
  cbn [app]. unfold writes. rewrite filter_cons_False by (intros []).
  apply (writes_prints fonts_list []).
Qed.

Lemma validate_image_extension_outcome w certification :
  passes_or_aborts w (validate_image_extension certification).
Proof.
  unfold passes_or_aborts, validate_image_extension.
  destruct (String.eqb _ _); [left | right]; eauto.
Qed.

Lemma validate_coordinates_outcome w x y certification :
  passes_or_aborts w (validate_coordinates x y certification).
Proof.
  unfold passes_or_aborts, validate_coordinates, bind, Image_open.
  destruct (image_dims w certification) as [size|]; [|right; eauto].
  destruct (_ || _); [right | left]; eauto.
Qed.

Lemma validate_csv_extension_outcome w csv_file :
  passes_or_aborts w (validate_csv_extension csv_file).
Proof.
  unfold passes_or_aborts, validate_csv_extension.
  destruct (String.eqb _ _); [left | right]; eauto.
Qed.

Lemma validate_rgb_colors_outcome w red green blue :
  passes_or_aborts w (validate_rgb_colors red green blue).
Proof.
  unfold passes_or_aborts, validate_rgb_colors, bind.
  destruct ((red >? 255) || (red <? 0)); [right; eauto|].
  destruct ((green >? 255) || (green <? 0)); [right; eauto|].
  destruct ((blue >? 255) || (blue <? 0)); [right | left]; eauto.
Qed.

Lemma validators_outcome w args check :
  check ∈ validators args -> passes_or_aborts w check.
Proof.
  unfold validators. rewrite !elem_of_cons, elem_of_nil.
  intros [->|[->|[->|[->|[->|[->|[]]]]]]];
    auto using validate_test_mode_outcome, validate_font_outcome,
      validate_image_extension_outcome, validate_coordinates_outcome,
      validate_csv_extension_outcome, validate_rgb_colors_outcome.
Qed.

Section InSequence.
Context {B : Type} (w : world) (rest : M B).

(** The first check that aborts decides the run. *)
Lemma in_sequence_first_abort checks :
  forall k check ab tr,
    checks !! k = Some check ->
    (forall j check', (j < k)%nat -> checks !! j = Some check' ->
                      check' w = (Ret true, [])) ->
    check w = (Abort ab, tr) ->
    in_sequence checks rest w = (Abort ab, tr).
Proof.
  induction checks as [|c checks IH]; intros k check ab tr Hk Hbefore Hcheck.
  { destruct k; discriminate. }
  cbn [in_sequence foldr]. destruct k as [|k].
  - injection Hk as ->. now apply bind_Abort.
  - erewrite bind_Ret; [ | apply (Hbefore 0%nat); [lia | reflexivity] | ].
    + reflexivity.
    + apply (IH k check); [exact Hk | | exact Hcheck].
      intros j check' Hj Hl. apply (Hbefore (S j)); [lia | exact Hl].
Qed.

Lemma in_sequence_cons_pass c checks :
  c w = (Ret true, []) ->
  in_sequence (c :: checks) rest w = in_sequence checks rest w.
Proof.
  intros Hc. change (in_sequence (c :: checks) rest) with (c ;;; in_sequence checks rest).
  unfold bind at 1. rewrite Hc. now destruct (in_sequence checks rest w).
Qed.

(** A save can only come from [rest], after every check returned. *)
Lemma in_sequence_writes checks :
  (forall check, check ∈ checks -> passes_or_aborts w check) ->
  writes (snd (in_sequence checks rest w)) <> [] ->
  forall check, check ∈ checks -> check w = (Ret true, []).
Proof.
  induction checks as [|c checks IH]; intros Hall Hw check Hin.
  { now apply elem_of_nil in Hin. }
  destruct (Hall c) as [Hc|(ab & tr & Hc & Htr)]; [apply list_elem_of_here | |].
  - apply elem_of_cons in Hin as [->|Hin]; [exact Hc|].
    apply IH; [| |exact Hin].
    + intros check' Hin'. apply Hall. now apply list_elem_of_further.
    + rewrite <- (in_sequence_cons_pass c checks Hc). exact Hw.
  - exfalso. apply Hw. change (in_sequence (c :: checks) rest)
      with (c ;;; in_sequence checks rest).
    rewrite (bind_Abort _ _ _ _ _ Hc). exact Htr.
Qed.
End InSequence.

(** C7: [main] runs the six checks in the order mode, font, image
    extension, coordinates, CSV extension, colours.  The first check that
    does not return ends the run with its own exit or exception, and nothing
    has been saved by then; a run in which any file is saved is one in which
    all six checks returned [True]. *)
Theorem main_validates_before_rendering w args :
  (forall k check ab tr,
     validators args !! k = Some check ->
     (forall j check', (j < k)%nat -> validators args !! j = Some check' ->
                       fst (check' w) = Ret true) ->
     check w = (Abort ab, tr) ->
     main args w = (Abort ab, tr) /\ writes (snd (main args w)) = [])
  /\ (writes (snd (main args w)) <> [] ->
      forall check, check ∈ validators args -> check w = (Ret true, [])).
Proof.
  rewrite main_in_sequence. split.
  - intros k check ab tr Hk Hbefore Hcheck.
    assert (Hrun : in_sequence (validators args) (load_and_issue args) w = (Abort ab, tr)).
    { apply (in_sequence_first_abort w _ _ k check); [exact Hk | | exact Hcheck].
      intros j check' Hj Hl.
      destruct (validators_outcome w args check') as [Hc|(ab' & tr' & Hc & _)];
        [eapply list_elem_of_lookup_2, Hl | exact Hc |].
      specialize (Hbefore j check' Hj Hl). rewrite Hc in Hbefore. discriminate. }
    rewrite Hrun. split; [reflexivity|]. cbn [snd].
    destruct (validators_outcome w args check) as [Hc|(ab' & tr' & Hc & Htr)];
      [eapply list_elem_of_lookup_2, Hk | congruence |].
    rewrite Hcheck in Hc. now injection Hc as -> ->.
  - apply in_sequence_writes. intros check. apply validators_outcome.
Qed.

Lemma main_validates_before_rendering_witness :
  main bad_mode_and_colour example_world
  = (Abort (SysExit (Some "Test mode must either be ON or OFF")), [])
  /\ writes (snd (main bad_mode_and_colour example_world)) = [].
Proof.
  apply (proj1 (main_validates_before_rendering example_world bad_mode_and_colour)
           0%nat (validate_test_mode "maybe")).
  - reflexivity.
  - intros j check' Hj. inversion Hj.
  - reflexivity.
Defined.

Example main_red_256 :
  main colour_256 example_world
  = (Abort (SysExit (Some "Red must have value of range [0,255]")), []).
Proof. reflexivity. Qed.

(** An unknown font: the fonts are listed and the process exits with no
    message; nothing is saved. *)
Example main_unknown_font :
  main {| arg_x := 10; arg_y := 20; arg_i := "cert.png"; arg_fo := "Comic.ttf";
          arg_s := 12; arg_fi := "names.csv"; arg_t := "ON";
          arg_r := 0; arg_g := 0; arg_b := 0 |} example_world
  = (Abort (SysExit None), [Print "Available fonts:"; Print "FreeMono.ttf"]).
Proof. reflexivity. Qed.

Example main_test_run :
  main {| arg_x := 10; arg_y := 20; arg_i := "cert.png"; arg_fo := "FreeMono.ttf";
          arg_s := 12; arg_fi := "names.csv"; arg_t := "ON";
          arg_r := 0; arg_g := 0; arg_b := 0 |} example_world
  = (Abort (SysExit (Some "TEST certificates created successfully")),
     test_pair 10 20 "cert.png" "FreeMono.ttf" 12 0 0 0 (800, 600) ada).
Proof. reflexivity. Qed.


(** ** Which paths have which extension *)

Module SplitextFacts.
Import PyStr PyStrFacts OsPath OsPathFacts.

Lemma append_assoc s t u : (s +:+ t) +:+ u = s +:+ t +:+ u.
Proof. induction s as [|a s IH]; [reflexivity|]. now rewrite !append_cons, IH. Qed.

Lemma occurs_append c s t : occurs c (s +:+ t) = occurs c s || occurs c t.
Proof.
  induction s as [|a s IH]; [reflexivity|].
  rewrite append_cons. cbn [occurs]. now rewrite IH, orb_assoc.
Qed.

Lemma occurs_take c n s : occurs c s = false -> occurs c (take n s) = false.
Proof.
  revert s. induction n as [|n IH]; intros [|a s] H; try reflexivity.
  cbn [occurs take] in *. apply orb_false_iff in H as [Ha H].
  now rewrite Ha, IH.
Qed.

Lemma take_add n m s : take (n + m) s = take n s +:+ take m (drop n s).
Proof.
  revert s. induction n as [|n IH]; intros s; [reflexivity|].
  destruct s as [|a s]; [now destruct m|].
  cbn [Nat.add take drop]. now rewrite append_cons, IH.
Qed.

Lemma take_length_append s t : take (String.length s) (s +:+ t) = s.
Proof. induction s as [|a s IH]; [reflexivity|]. rewrite append_cons. cbn. now rewrite IH. Qed.

Lemma drop_length_append s t : drop (String.length s) (s +:+ t) = t.
Proof. induction s as [|a s IH]; [reflexivity|]. rewrite append_cons. cbn. exact IH. Qed.

Lemma drop_cons_lt n s a t : drop n s = String a t -> (n < String.length s)%nat.
Proof.
  revert s. induction n as [|n IH]; intros [|b s] H; try discriminate.
  - cbn. lia.
  - cbn in *. apply IH in H. lia.
Qed.

Lemma rfind_from_absent s c i last : occurs c s = false -> rfind_from s c i last = last.
Proof.
  revert i last. induction s as [|a s IH]; intros i last H; [reflexivity|].
  cbn [occurs rfind_from] in *. apply orb_false_iff in H as [Ha H].
  now rewrite Ha, IH.
Qed.

Lemma rfind_from_append s t c i last :
  rfind_from (s +:+ t) c i last
  = rfind_from t c (i + Z.of_nat (String.length s)) (rfind_from s c i last).
Proof.
  revert i last. induction s as [|a s IH]; intros i last.
  - cbn. now rewrite Z.add_0_r.
  - rewrite append_cons. cbn [rfind_from String.length]. rewrite IH. f_equal. lia.
Qed.

(** [rfind] is -1 or an index of the string. *)
Lemma rfind_range s c : -1 <= rfind s c < Z.of_nat (String.length s).
Proof.
  unfold rfind. destruct (rfind_from_spec s c 0 (-1)) as [[_ ->]|(n & t & -> & Hd & _)].
  - lia.
  - apply drop_cons_lt in Hd. lia.
Qed.

(** The loop returns as soon as it meets a character that is not a dot. *)
Lemma skip_leading_dots_hit n p filenameIndex dotIndex :
  (exists k, filenameIndex <= k < filenameIndex + Z.of_nat n
             /\ slice p k (k + 1) <> ".") ->
  skip_leading_dots n p filenameIndex dotIndex
  = Some (slice p 0 dotIndex, drop (Z.to_nat dotIndex) p).
Proof.
  revert filenameIndex. induction n as [|n IH]; intros fi (k & Hk & Hne); [lia|].
  cbn [skip_leading_dots].
  destruct (String.eqb_spec (slice p fi (fi + 1)) ".") as [Heq|_]; [|reflexivity].
  cbn [negb]. apply IH. exists k. split; [|exact Hne].
  assert (k <> fi) by (intros ->; contradiction). lia.
Qed.

(** When the loop returns, it has met a character that is not a dot. *)
Lemma skip_leading_dots_found n p filenameIndex dotIndex r :
  skip_leading_dots n p filenameIndex dotIndex = Some r ->
  exists k, filenameIndex <= k < filenameIndex + Z.of_nat n
            /\ slice p k (k + 1) <> ".".
Proof.
  revert filenameIndex. induction n as [|n IH]; intros fi; [discriminate|].
  cbn [skip_leading_dots].
  destruct (String.eqb_spec (slice p fi (fi + 1)) ".") as [Heq|Hne]; cbn [negb].
  - intros (k & Hk & Hne)%IH. exists k. split; [lia | exact Hne].
  - intros _. exists fi. split; [lia | exact Hne].
Qed.

Lemma slice_one p (n : nat) a t :
  drop n p = String a t -> slice p (Z.of_nat n) (Z.of_nat n + 1) = String a "".
Proof.
  intros Hd. unfold slice. rewrite Nat2Z.id, Hd.
  now replace (Z.to_nat (Z.of_nat n + 1 - Z.of_nat n)) with 1%nat by lia.
Qed.

(** A path made of a root with a stem and a dot-led suffix free of dots
    and slashes splits into the two. *)
Lemma splitext_of_parts root t :
  has_stem root -> occurs "." t = false -> occurs "/" t = false ->
  splitext (root +:+ String "." t) = (root, String "." t).
Proof.
  intros (pre & c & post & -> & Hdot & Hsep & Hpost) Ht_dot Ht_sep.
  set (root := pre +:+ String c post). set (p := root +:+ String "." t).
  assert (Hd : rfind p "." = Z.of_nat (String.length root)).
  { unfold rfind, p. rewrite rfind_from_append. cbn [rfind_from Ascii.eqb Bool.eqb].
    cbn. now rewrite rfind_from_absent. }
  assert (Hs : rfind p "/" = rfind pre "/").
  { unfold rfind, p, root. rewrite append_assoc, rfind_from_append.
    apply rfind_from_absent. rewrite append_cons. cbn [occurs].
    rewrite occurs_append. cbn [occurs]. rewrite Hpost, Ht_sep.
    destruct (Ascii.eqb_spec c "/"); [contradiction | reflexivity]. }
  pose proof (rfind_range pre "/") as Hrange.
  assert (Hlen : String.length root = (String.length pre + S (String.length post))%nat).
  { unfold root. now rewrite length_append. }
  unfold splitext. fold p. rewrite Hd, Hs.
  destruct (Z.ltb_spec (rfind pre "/") (Z.of_nat (String.length root))) as [_|?]; [|lia].
  rewrite skip_leading_dots_hit.
  - unfold slice. rewrite Z.sub_0_r, Nat2Z.id.
    change (drop (Z.to_nat 0) p) with p. unfold p.
    now rewrite take_length_append, drop_length_append.
  - exists (Z.of_nat (String.length pre)). split; [lia|].
    rewrite (slice_one p (String.length pre) c (post +:+ String "." t)).
    + intros [= ->]. now apply Hdot.
    + unfold p, root. now rewrite append_assoc, drop_length_append.
Qed.

(** A path that splits with a non-empty extension is made of a root with a
    stem and that extension. *)
Lemma splitext_parts p root t :
  splitext p = (root, String "." t) -> p = root +:+ String "." t /\ has_stem root.
Proof.
  intros Hsplit. split.
  { rewrite <- (splitext_append p). now rewrite Hsplit. }
  revert Hsplit. unfold splitext.
  destruct (Z.ltb_spec (rfind p "/") (rfind p ".")) as [Hlt|_]; [|discriminate].
  destruct (skip_leading_dots _ _ _ _) as [r|] eqn:Hskip; [|discriminate].
  pose proof (skip_leading_dots_found _ _ _ _ _ Hskip) as (k & Hk & Hne).
  apply skip_leading_dots_some in Hskip as ->. intros [= Hroot Hext].
  pose proof (rfind_range p "/") as Hsr. pose proof (rfind_range p ".") as Hdr.
  set (kn := Z.to_nat k) in *. set (dn := Z.to_nat (rfind p ".")) in *.
  assert (Hkd : (kn < dn)%nat) by (unfold kn, dn; lia).
  (* the character at index k *)
  destruct (drop kn p) as [|c rest] eqn:Hdrop.
  { exfalso. replace dn with (kn + (dn - kn))%nat in Hext by lia.
    rewrite drop_add, Hdrop in Hext. now destruct (dn - kn)%nat. }
  assert (Hc : c <> "."%char).
  { intros ->. apply Hne. replace k with (Z.of_nat kn) by (unfold kn; lia).
    now apply (slice_one p kn "." rest). }
  (* no slash from index k on *)
  assert (Hnoslash : occurs "/" (String c rest) = false).
  { rewrite <- Hdrop. unfold rfind in *.
    destruct (rfind_from_spec p "/" 0 (-1)) as [[Hno _]|(m & t' & Hm & Hd' & Ht')].
    - now apply occurs_drop.
    - assert (Hrest' : t' = drop (S m) p) by (now rewrite drop_S, Hd').
      replace kn with (S m + (kn - S m))%nat by (unfold kn; lia).
      rewrite drop_add, <- Hrest'. now apply occurs_drop. }
  cbn [occurs] in Hnoslash. apply orb_false_iff in Hnoslash as [Hcs Hrs].
  exists (take kn p), c, (take (dn - kn - 1) rest). repeat split.
  - rewrite <- Hroot. unfold slice. rewrite Z.sub_0_r. fold dn.
    change (drop (Z.to_nat 0) p) with p.
    replace dn with (kn + S (dn - kn - 1))%nat at 1 by lia.
    now rewrite take_add, Hdrop.
  - exact Hc.
  - intros ->. discriminate.
  - now apply occurs_take.
Qed.

(** [splitext], without the indices: the paths with a given non-empty
    extension. *)
Lemma splitext_spec p root t :
  occurs "." t = false -> occurs "/" t = false ->
  splitext p = (root, String "." t)
  <-> p = root +:+ String "." t /\ has_stem root.
Proof.
  intros Hd Hs. split; [apply splitext_parts|].
  intros [-> Hstem]. now apply splitext_of_parts.
Qed.

End SplitextFacts.

Module LowerFacts.
Import PyStr PyStrFacts.

(** Lowering a character gives a dot or a slash only from itself. *)
Lemma eqb_lower_char a c :
  (N_of_ascii c < 65)%N -> Ascii.eqb (lower_char a) c = Ascii.eqb a c.
Proof.
  intros Hc. unfold lower_char.
  destruct ((65 <=? N_of_ascii a)%N && (N_of_ascii a <=? 90)%N) eqn:E; [|reflexivity].
  apply andb_true_iff in E as [E1%N.leb_le E2%N.leb_le].
  destruct (Ascii.eqb_spec a c) as [->|_]; [lia|].
  destruct (Ascii.eqb_spec (ascii_of_N (N_of_ascii a + 32)) c) as [<-|_]; [|reflexivity].
  rewrite N_ascii_embedding in Hc by lia. lia.
Qed.

Lemma occurs_lower c s : (N_of_ascii c < 65)%N -> occurs c (lower s) = occurs c s.
Proof.
  intros Hc. induction s as [|a s IH]; [reflexivity|].
  cbn [lower occurs]. now rewrite eqb_lower_char, IH.
Qed.

(** A string that lowers to a dot-led suffix free of dots and slashes is
    one itself. *)
Lemma lower_dot_suffix ext target :
  lower ext = String "." target ->
  occurs "." target = false -> occurs "/" target = false ->
  exists t, ext = String "." t /\ occurs "." t = false /\ occurs "/" t = false.
Proof.
  destruct ext as [|d t]; [discriminate|]. cbn [lower]. intros [= Hd Ht] Hdot Hsep.
  apply lower_char_other in Hd; [subst d | vm_compute; intros [H _]; now apply H].
  exists t. split; [reflexivity|]. rewrite <- Ht in Hdot, Hsep.
  rewrite occurs_lower in Hdot by (vm_compute; reflexivity).
  rewrite occurs_lower in Hsep by (vm_compute; reflexivity).
  now split.
Qed.

(** The paths whose extension lowers to a given one: a root with a stem,
    then a spelling of the extension. *)
Lemma lowered_extension_paths p target :
  occurs "." target = false -> occurs "/" target = false ->
  lower (snd (OsPath.splitext p)) = String "." target
  <-> exists root ext,
        p = root +:+ ext /\ lower ext = String "." target /\ has_stem root.
Proof.
  intros Hdot Hsep. split.
  - intros Hlow.
    destruct (lower_dot_suffix _ _ Hlow Hdot Hsep) as (t & Hext & _ & _).
    destruct (SplitextFacts.splitext_parts p (fst (OsPath.splitext p)) t) as [Hp Hstem].
    { rewrite <- Hext. now destruct (OsPath.splitext p). }
    exists (fst (OsPath.splitext p)), (snd (OsPath.splitext p)).
    split; [now rewrite Hext | split; [exact Hlow | exact Hstem]].
  - intros (root & ext & -> & Hlow & Hstem).
    destruct (lower_dot_suffix _ _ Hlow Hdot Hsep) as (t & -> & Ht_dot & Ht_sep).
    now rewrite (SplitextFacts.splitext_of_parts root t Hstem Ht_dot Ht_sep).
Qed.

(** [s.lower() == "off"]: the eight spellings of "off". *)
Lemma lower_off s :
  lower s = "off"
  <-> s ∈ ["off"; "ofF"; "oFf"; "oFF"; "Off"; "OfF"; "OFf"; "OFF"].
Proof.
  split.
  - destruct s as [|a [|b [|c [|? ?]]]]; try discriminate.
    cbn [lower]. intros [= Ha Hb Hc].
    apply (lower_char_letter a "o" "O") in Ha; [|vm_compute; split; discriminate|reflexivity].
    apply (lower_char_letter b "f" "F") in Hb; [|vm_compute; split; discriminate|reflexivity].
    apply (lower_char_letter c "f" "F") in Hc; [|vm_compute; split; discriminate|reflexivity].
    destruct Ha as [-> | ->], Hb as [-> | ->], Hc as [-> | ->];
      repeat first [apply list_elem_of_here | apply list_elem_of_further].
  - rewrite !elem_of_cons, elem_of_nil.
    intros [->|[->|[->|[->|[->|[->|[->|[->|[]]]]]]]]]; reflexivity.
Qed.

End LowerFacts.

(** ** The checks the claims leave out *)

(** X1: the mode check returns [True] exactly for the four spellings of
    "on" and the eight spellings of "off" (no blank, no other word), and
    otherwise exits with "Test mode must either be ON or OFF". *)
Theorem validate_test_mode_spellings w test_mode :
  (validate_test_mode test_mode w = (Ret true, [])
   <-> test_mode ∈ ["on"; "On"; "oN"; "ON";
                    "off"; "ofF"; "oFf"; "oFF"; "Off"; "OfF"; "OFf"; "OFF"])
  /\ (validate_test_mode test_mode w = (Ret true, [])
      \/ validate_test_mode test_mode w
         = (Abort (SysExit (Some "Test mode must either be ON or OFF")), [])).
Proof.
  unfold validate_test_mode, bind.
  change ["on"; "On"; "oN"; "ON"; "off"; "ofF"; "oFf"; "oFF"; "Off"; "OfF"; "OFf"; "OFF"]
    with (["on"; "On"; "oN"; "ON"]
          ++ ["off"; "ofF"; "oFf"; "oFF"; "Off"; "OfF"; "OFf"; "OFF"]).
  rewrite elem_of_app, <- LowerFacts.lower_off.
  assert (Hon : PyStr.lower test_mode = "on" <-> test_mode ∈ ["on"; "On"; "oN"; "ON"]).
  { rewrite PyStrFacts.lower_on, !elem_of_cons, elem_of_nil. tauto. }
  rewrite <- Hon.
  destruct (String.eqb_spec (PyStr.lower test_mode) "on") as [Ho|Ho];
    destruct (String.eqb_spec (PyStr.lower test_mode) "off") as [Hf|Hf]; cbn.
  - split; [tauto | now left].
  - split; [tauto | now left].
  - split; [tauto | now left].
  - split; [|now right]. split; [discriminate | tauto].
Qed.



(** X3: the roster check returns [True] exactly for the paths made of a
    root whose last component holds a character that is not a dot, followed
    by ".csv" in any mix of cases; every other path exits with "CSV file is
    not a .csv file". *)
Theorem validate_csv_extension_paths w csv_file :
  (validate_csv_extension csv_file w = (Ret true, [])
   <-> exists root ext,
         csv_file = root +:+ ext /\ PyStr.lower ext = ".csv" /\ has_stem root)
  /\ (validate_csv_extension csv_file w = (Ret true, [])
      \/ validate_csv_extension csv_file w
         = (Abort (SysExit (Some "CSV file is not a .csv file")), [])).
Proof.
  rewrite <- (LowerFacts.lowered_extension_paths csv_file "csv") by reflexivity.
  unfold validate_csv_extension.
  destruct (String.eqb_spec (PyStr.lower (snd (OsPath.splitext csv_file))) ".csv")
    as [Heq|Hne].
  - split; [split; [intros _; exact Heq | reflexivity] | now left].
  - split; [split; [discriminate | intros Heq; now destruct Hne] | now right].
Qed.

Example validate_csv_extension_examples w :
  validate_csv_extension "rosters/2024.names.CSV" w = (Ret true, [])
  /\ validate_csv_extension "names.csv.bak" w
     = (Abort (SysExit (Some "CSV file is not a .csv file")), [])
  /\ validate_csv_extension ".csv" w
     = (Abort (SysExit (Some "CSV file is not a .csv file")), [])
  /\ validate_csv_extension "names.csv/" w
     = (Abort (SysExit (Some "CSV file is not a .csv file")), []).
Proof. now repeat split. Qed.

(** X4: the template check returns [True] exactly for the paths made of a
    root whose last component holds a character that is not a dot, followed
    by ".png" in any mix of cases; every other path exits with
    "Certification is not a .PNG file". *)
Theorem validate_image_extension_paths w certification :
  (validate_image_extension certification w = (Ret true, [])
   <-> exists root ext,
         certification = root +:+ ext /\ PyStr.lower ext = ".png" /\ has_stem root)
  /\ (validate_image_extension certification w = (Ret true, [])
      \/ validate_image_extension certification w
         = (Abort (SysExit (Some "Certification is not a .PNG file")), [])).
Proof.
  rewrite <- (LowerFacts.lowered_extension_paths certification "png") by reflexivity.
  rewrite validate_image_extension_run.
  destruct (String.eqb_spec (PyStr.lower (snd (OsPath.splitext certification))) ".png")
    as [Heq|Hne].
  - split; [split; [intros _; exact Heq | reflexivity] | now left].
  - split; [split; [discriminate | intros Heq; now destruct Hne] | now right].
Qed.

(** ** The roster, for any file *)

(** A row holds nothing under a name the header does not have. *)
Lemma DictReader_row_absent (fieldnames row : list string) (name : string) :
  name ∉ fieldnames ->
  Csv.fields (Csv.DictReader_row fieldnames row) !! name = None.
Proof.
  intros Hnot. unfold Csv.DictReader_row, Csv.dict_of_zip.
  assert (Hzip : Csv.fields (foldl Csv.put Csv.empty_dict (zip fieldnames row)) !! name
                 = None).
  { rewrite CsvFacts.foldl_put_other; [apply lookup_empty|].
    intros ([k v] & -> & Hin)%list_elem_of_fmap. apply Hnot.
    now apply elem_of_zip_l in Hin. }
  destruct (length fieldnames <? length row)%nat; [exact Hzip|].
  destruct (length row <? length fieldnames)%nat; [|exact Hzip].
  rewrite CsvFacts.foldl_blank, decide_False; [exact Hzip|].
  intros Hin. apply Hnot. now apply (subseteq_drop (length row)).
Qed.

(** The loop of [get_full_name] prints and saves nothing and, when it ends,
    has appended one entry and counted one per row. *)
Lemma get_full_name_loop_returns w reader :
  forall names0 n0 names number_of_rows tr,
    get_full_name_loop reader names0 n0 w = (Ret (names, number_of_rows), tr) ->
    tr = []
    /\ length names = (length names0 + length reader)%nat
    /\ number_of_rows = n0 + Z.of_nat (length reader).
Proof.
  induction reader as [|row reader IH]; intros names0 n0 names n tr.
  - cbn [get_full_name_loop ret length]. intros [= <- <- <-].
    repeat split; lia.
  - cbn [get_full_name_loop length]. unfold bind, Csv.dict_getitem.
    destruct (Csv.fields row !! "First name") as [fn|]; [cbn [ret] | discriminate].
    destruct (Csv.fields row !! "Last name") as [ln|]; [cbn [ret] | discriminate].
    destruct (get_full_name_loop reader _ _ w) as [[[names' n']|ab] tr'] eqn:Hloop;
      [|discriminate].
    intros [= <- <- <-]. apply IH in Hloop as (-> & Hlen & ->).
    rewrite length_app in Hlen. cbn [length] in Hlen. repeat split; lia.
Qed.

(** X5: whatever the file, when [get_full_name] returns, the count it
    returns is the length of the list it returns, which is the number of
    non-blank rows after the first; and it has printed and saved nothing. *)
Theorem get_full_name_count w csv_file names number_of_rows tr :
  get_full_name csv_file w = (Ret (names, number_of_rows), tr) ->
  number_of_rows = Z.of_nat (length names)
  /\ tr = []
  /\ exists rows, csv_rows w csv_file = Some rows
                  /\ length names = length (Csv.data_rows (tail rows)).
Proof.
  unfold get_full_name, bind, open_csv.
  destruct (csv_rows w csv_file) as [rows|]; [|discriminate].
  destruct (get_full_name_loop _ _ _ w) as [[[names' n']|ab] tr'] eqn:Hloop;
    [|discriminate].
  intros [= <- <- <-]. apply get_full_name_loop_returns in Hloop as (-> & Hlen & ->).
  cbn [length] in Hlen. split; [lia|]. split; [reflexivity|].
  exists rows. split; [reflexivity|]. rewrite Hlen.
  destruct rows as [|fieldnames rest]; [reflexivity|].
  cbn [Csv.DictReader tail]. now rewrite length_map.
Qed.

Lemma get_full_name_count_witness :
  2 = Z.of_nat (length [ada; alan])
  /\ @nil event = []
  /\ exists rows, csv_rows example_world "names.csv" = Some rows
                  /\ length [ada; alan] = length (Csv.data_rows (tail rows)).
Proof.
  apply (get_full_name_count example_world "names.csv" [ada; alan] 2 []).
  reflexivity.
Defined.

(** X6: when the file has a row of data and its first row has no column
    named "First name" as written, [get_full_name] raises [KeyError] for
    "First name" (also when "Last name" is missing too); when it has that
    column but none named "Last name", it raises [KeyError] for "Last name".
    Nothing is returned for the rows before. *)
Theorem get_full_name_missing_column w csv_file fieldnames rest :
  csv_rows w csv_file = Some (fieldnames :: rest) ->
  Csv.data_rows rest <> [] ->
  ("First name" ∉ fieldnames ->
     get_full_name csv_file w = (Abort (Uncaught (KeyError "First name")), []))
  /\ ("First name" ∈ fieldnames -> "Last name" ∉ fieldnames ->
     get_full_name csv_file w = (Abort (Uncaught (KeyError "Last name")), [])).
Proof.
  intros Hfile Hrows. unfold get_full_name, bind, open_csv. rewrite Hfile.
  cbn [Csv.DictReader]. destruct (Csv.data_rows rest) as [|row rows]; [contradiction|].
  cbn [map get_full_name_loop]. unfold bind, Csv.dict_getitem. split.
  - intros Hfirst. now rewrite (DictReader_row_absent fieldnames row _ Hfirst).
  - intros Hfirst Hlast.
    destruct (CsvFacts.DictReader_row_lookup fieldnames row _ Hfirst) as (i & _ & ->).
    cbn [ret]. now rewrite (DictReader_row_absent fieldnames row _ Hlast).
Qed.

Lemma get_full_name_missing_column_witness :
  get_full_name "names.csv" lower_case_header_world
  = (Abort (Uncaught (KeyError "First name")), []).
Proof.
  apply (get_full_name_missing_column lower_case_header_world "names.csv"
           ["first name"; "last name"] [["Ada"; "Lovelace"]] eq_refl).
  - discriminate.
  - rewrite !elem_of_cons, elem_of_nil. intros [[=]|[[=]|[]]].
Defined.

(** X7: a file with no row of data (empty, a first row only, or a first row
    followed by blank lines only) loads as the empty roster with count 0,
    whatever its first row is: the column names are not looked at. *)
Theorem get_full_name_no_data w csv_file rows :
  csv_rows w csv_file = Some rows ->
  Forall (fun row => row = []) (tail rows) ->
  get_full_name csv_file w = (Ret ([], 0), []).
Proof.
  intros Hfile Hblank. unfold get_full_name, bind, open_csv. rewrite Hfile.
  destruct rows as [|fieldnames rest]; [reflexivity|].
  cbn [tail] in Hblank. cbn [Csv.DictReader].
  assert (Hdata : Csv.data_rows rest = []).
  { clear Hfile. unfold Csv.data_rows.
    induction Hblank as [|row rest -> _ IH]; [reflexivity|].
    rewrite filter_cons_False; [exact IH | intros H; now apply H]. }
  now rewrite Hdata.
Qed.

Lemma get_full_name_no_data_witness :
  get_full_name "names.csv" header_only_world = (Ret ([], 0), []).
Proof.
  apply (get_full_name_no_data header_only_world "names.csv" [["Name"; "Email"]; []; []]).
  - reflexivity.
  - repeat constructor.
Defined.

(** ** The loop of full mode, for any row count *)

Lemma bind_assoc {A B C} (m : M A) (k : A -> M B) (h : B -> M C) w :
  bind (bind m k) h w = bind m (fun a => bind (k a) h) w.
Proof.
  unfold bind. destruct (m w) as [[a|ab] tr]; [|reflexivity].
  destruct (k a w) as [[b|ab] tr']; [|reflexivity].
  destruct (h b w) as [r tr'']. now rewrite app_assoc.
Qed.

Lemma bind_ext {A B} (m : M A) (k k' : A -> M B) w :
  (forall a, k a w = k' a w) -> bind m k w = bind m k' w.
Proof.
  intros Hk. unfold bind. destruct (m w) as [[a|ab] tr]; [|reflexivity].
  now rewrite Hk.
Qed.

Lemma for_each_app {A} (l1 l2 : list A) (body : A -> M unit) w :
  for_each (l1 ++ l2) body w = (for_each l1 body ;;; for_each l2 body) w.
Proof.
  induction l1 as [|a l1 IH]; cbn [app for_each].
  - now rewrite bind_ret.
  - rewrite bind_assoc. apply bind_ext. intros _. exact IH.
Qed.

(** The iterations [k], ..., [k + m - 1] of a loop over a list, when each of
    them returns. *)
Lemma for_each_seq_take {A} (body : Z -> M unit) (l : list A) (out : A -> list event) w :
  forall m k,
    (k + m <= length l)%nat ->
    (forall n a, (k <= n < k + m)%nat -> l !! n = Some a ->
                 body (Z.of_nat n) w = (Ret tt, out a)) ->
    for_each (map Z.of_nat (seq k m)) body w
    = (Ret tt, flat_map out (take m (drop k l))).
Proof.
  induction m as [|m IH]; intros k Hk Hbody; [reflexivity|].
  destruct (lookup_lt_is_Some_2 l k) as [a Ha]; [lia|].
  rewrite (drop_S _ _ _ Ha). cbn [seq map for_each take flat_map].
  erewrite bind_Ret; [reflexivity | apply Hbody; [lia | exact Ha] |].
  apply IH; [lia|]. intros n b Hn. apply Hbody. lia.
Qed.

Lemma list_getitem_beyond {A} (l : list A) (n : nat) w :
  (length l <= n)%nat -> list_getitem l (Z.of_nat n) w = (Abort (Uncaught IndexError), []).
Proof.
  intros Hn. unfold list_getitem.
  destruct (Z.ltb_spec (Z.of_nat n) 0) as [?|_]; [lia|].
  destruct (Z.ltb_spec (Z.of_nat n) 0) as [?|_]; [lia|].
  now rewrite Nat2Z.id, lookup_ge_None_2.
Qed.

Lemma full_name_at_beyond names (n : nat) w :
  (length names <= n)%nat ->
  full_name_at names (Z.of_nat n) w = (Abort (Uncaught IndexError), []).
Proof.
  intros Hn. unfold full_name_at, bind. now rewrite list_getitem_beyond.
Qed.

Lemma range_split (n : nat) (number_of_rows : Z) :
  Z.of_nat n <= number_of_rows ->
  range number_of_rows
  = map Z.of_nat (seq 0 n) ++ map Z.of_nat (seq n (Z.to_nat number_of_rows - n)).
Proof.
  intros Hn. unfold range. rewrite <- map_app, <- seq_app. do 2 f_equal. lia.
Qed.

Section FullMode.
Variables (w : world) (names : list RosterEntry).
Variables (x y : Z) (certification csv_file font_name : string) (font_size : Z).
Variables (mode : string) (red green blue : Z) (size : Z * Z).
Hypothesis Hmode : PyStr.lower mode <> "on".
Hypothesis Himg : image_dims w certification = Some size.
Hypothesis Hdecode : can_decode w certification = true.
Hypothesis Hfont : font_loads w ("fonts/" +:+ font_name) font_size = true.

Local Abbreviation pair_of :=
  (entry_pair x y certification font_name font_size red green blue size).
Local Abbreviation draws_text :=
  (draws x y font_name font_size red green blue size w).

(** A row count within the roster: the first [number_of_rows] entries are
    rendered. *)
Lemma issue_certificates_full_run number_of_rows :
  number_of_rows <= Z.of_nat (length names) ->
  (forall e, e ∈ take (Z.to_nat number_of_rows) names ->
     draws_text (full_name e) = true
     /\ can_save w (full_name e +:+ ".pdf") = true
     /\ can_save w (full_name e +:+ ".PNG") = true) ->
  issue_certificates names number_of_rows x y certification csv_file font_name
    font_size mode red green blue w
  = (Abort (SysExit (Some "Certificates created successfully")),
     flat_map pair_of (take (Z.to_nat number_of_rows) names)).
Proof.
  intros Hle Hgo. rewrite (issue_certificates_off w _ _ _ _ _ _ _ _ _ _ _ _ Hmode).
  erewrite bind_Ret; [ | apply (for_each_seq_take _ names pair_of) | reflexivity ].
  - now rewrite app_nil_r.
  - lia.
  - intros n e Hn Hl. destruct (Hgo e) as (Hdraw & Hpdf & Hpng).
    { apply list_elem_of_lookup. exists n. rewrite lookup_take_lt by lia. exact Hl. }
    now apply (full_mode_body_run w names x y certification font_name font_size
                 red green blue size).
Qed.

(** The iteration past the end of the roster. *)
Lemma full_mode_body_beyond (n : nat) :
  (length names <= n)%nat ->
  full_mode_body names x y certification font_name font_size red green blue
    (Z.of_nat n) w
  = (Abort (Uncaught IndexError), []).
Proof.
  intros Hn. unfold full_mode_body, bind, Image_open, Image_convert, ImageFont_truetype.
  rewrite Himg. cbv beta iota. rewrite Hdecode. cbn [image_size_of]. rewrite Hfont.
  now rewrite full_name_at_beyond.
Qed.

End FullMode.

(** X8: in full mode the row count, not the roster, drives the loop.  With
    the template and the font at hand and every entry's name drawn and
    files written: for a count up to the roster's length the first
    [number_of_rows] entries are rendered (none for a count of 0 or less)
    and the run ends in the success exit; for a larger count every entry is
    rendered, both files each, and then the look-up past the end raises
    [IndexError]. *)
Theorem issue_certificates_row_count w names number_of_rows x y certification
    csv_file font_name font_size mode red green blue size :
  PyStr.lower mode <> "on" ->
  image_dims w certification = Some size ->
  can_decode w certification = true ->
  font_loads w ("fonts/" +:+ font_name) font_size = true ->
  (forall e, e ∈ names ->
     draws x y font_name font_size red green blue size w (full_name e) = true
     /\ can_save w (full_name e +:+ ".pdf") = true
     /\ can_save w (full_name e +:+ ".PNG") = true) ->
  issue_certificates names number_of_rows x y certification csv_file font_name
    font_size mode red green blue w
  = if number_of_rows <=? Z.of_nat (length names)
    then (Abort (SysExit (Some "Certificates created successfully")),
          flat_map (entry_pair x y certification font_name font_size red green blue size)
                   (take (Z.to_nat number_of_rows) names))
    else (Abort (Uncaught IndexError),
          flat_map (entry_pair x y certification font_name font_size red green blue size)
                   names).
Proof.
  intros Hmode Himg Hdecode Hfont Hgo.
  destruct (Z.leb_spec number_of_rows (Z.of_nat (length names))) as [Hle|Hgt].
  - apply issue_certificates_full_run; try assumption.
    intros e He. apply Hgo. now apply (subseteq_take (Z.to_nat number_of_rows)).
  - rewrite (issue_certificates_off w _ _ _ _ _ _ _ _ _ _ _ _ Hmode).
    apply bind_Abort. rewrite (range_split (length names)) by lia.
    rewrite for_each_app.
    destruct (Z.to_nat number_of_rows - length names)%nat as [|d] eqn:Hd; [lia|].
    erewrite bind_Ret;
      [ | apply (for_each_seq_take _ names
                   (entry_pair x y certification font_name font_size red green blue size))
        | cbn [seq map for_each]; apply bind_Abort;
          now apply (full_mode_body_beyond w names x y certification font_name
                       font_size red green blue size) ].
    + rewrite drop_0. now rewrite take_ge, app_nil_r by lia.
    + lia.
    + intros n e _ Hl. destruct (Hgo e) as (Hdraw & Hpdf & Hpng);
        [eapply list_elem_of_lookup_2, Hl|].
      now apply (full_mode_body_run w names x y certification font_name font_size
                   red green blue size).
Qed.

Lemma issue_certificates_row_count_witness :
  issue_certificates [ada; alan] 3 10 20 "cert.png" "names.csv" "FreeMono.ttf" 12
    "off" 0 0 0 example_world
  = (Abort (Uncaught IndexError),
     flat_map (entry_pair 10 20 "cert.png" "FreeMono.ttf" 12 0 0 0 (800, 600))
              [ada; alan]).
Proof.
  apply (issue_certificates_row_count example_world [ada; alan] 3 10 20 "cert.png"
           "names.csv" "FreeMono.ttf" 12 "off" 0 0 0 (800, 600)).
  - discriminate.
  - reflexivity.
  - reflexivity.
  - reflexivity.
  - intros e _. repeat split; reflexivity.
Defined.

(** The first iteration that aborts ends the loop, after the events of the
    iterations before it. *)
Lemma for_each_aborts_at {A} (body : Z -> M unit) (before : list A)
    (out : A -> list event) w (d : nat) ab tr :
  (forall n a, before !! n = Some a -> body (Z.of_nat n) w = (Ret tt, out a)) ->
  body (Z.of_nat (length before)) w = (Abort ab, tr) ->
  for_each (map Z.of_nat (seq 0 (length before))
            ++ map Z.of_nat (seq (length before) (S d))) body w
  = (Abort ab, flat_map out before ++ tr).
Proof.
  intros Hbefore Hhere. rewrite for_each_app.
  erewrite bind_Ret;
    [ | apply (for_each_seq_take body before out w (length before) 0%nat)
      | cbn [seq map for_each]; apply bind_Abort; exact Hhere ].
  - now rewrite drop_0, take_ge by lia.
  - lia.
  - intros n a _. apply Hbefore.
Qed.

(** X9: a step that fails in full mode ends the batch there and leaves what
    was saved before.  With the template and the font at hand and the
    entries before [e] rendered: when the name of [e] cannot be drawn, or
    its PDF cannot be saved, the files of the entries before it are all that
    was written; when its PDF is saved and its PNG is not, that PDF is left
    without its PNG.  No entry after it is rendered. *)
Theorem issue_certificates_partial_output w before e after number_of_rows x y
    certification csv_file font_name font_size mode red green blue size :
  PyStr.lower mode <> "on" ->
  image_dims w certification = Some size ->
  can_decode w certification = true ->
  font_loads w ("fonts/" +:+ font_name) font_size = true ->
  (forall a, a ∈ before ->
     draws x y font_name font_size red green blue size w (full_name a) = true
     /\ can_save w (full_name a +:+ ".pdf") = true
     /\ can_save w (full_name a +:+ ".PNG") = true) ->
  Z.of_nat (length before) < number_of_rows ->
  (draws x y font_name font_size red green blue size w (full_name e) = false ->
   issue_certificates (before ++ e :: after) number_of_rows x y certification
     csv_file font_name font_size mode red green blue w
   = (Abort (Uncaught (Failed (DrawText (x, y) (full_name e)))),
      flat_map (entry_pair x y certification font_name font_size red green blue size)
               before))
  /\ (draws x y font_name font_size red green blue size w (full_name e) = true ->
      can_save w (full_name e +:+ ".pdf") = false ->
      issue_certificates (before ++ e :: after) number_of_rows x y certification
        csv_file font_name font_size mode red green blue w
      = (Abort (Uncaught (Failed (SaveImage (full_name e +:+ ".pdf")))),
         flat_map (entry_pair x y certification font_name font_size red green blue size)
                  before))
  /\ (draws x y font_name font_size red green blue size w (full_name e) = true ->
      can_save w (full_name e +:+ ".pdf") = true ->
      can_save w (full_name e +:+ ".PNG") = false ->
      issue_certificates (before ++ e :: after) number_of_rows x y certification
        csv_file font_name font_size mode red green blue w
      = (Abort (Uncaught (Failed (SaveImage (full_name e +:+ ".PNG")))),
         flat_map (entry_pair x y certification font_name font_size red green blue size)
                  before
         ++ [Save (Converted "RGB"
                     (composite x y certification font_name font_size red green blue
                                size (full_name e)))
                  (full_name e +:+ ".pdf") "PDF" [("resoultion", 100 # 1)]])).
Proof.
  intros Hmode Himg Hdecode Hfont Hgo Hrows.
  assert (Hhere : (before ++ e :: after) !! length before = Some e).
  { now rewrite lookup_app_r, Nat.sub_diag by lia. }
  pose proof (full_mode_body_at w (before ++ e :: after) x y certification font_name
                font_size red green blue size Himg Hdecode Hfont _ _ Hhere) as Hbody.
  assert (Hbefore : forall n a, before !! n = Some a ->
            full_mode_body (before ++ e :: after) x y certification font_name font_size
              red green blue (Z.of_nat n) w
            = (Ret tt, entry_pair x y certification font_name font_size red green blue
                         size a)).
  { intros n a Hl. destruct (Hgo a) as (Hdraw & Hpdf & Hpng);
      [eapply list_elem_of_lookup_2, Hl|].
    apply (full_mode_body_run w (before ++ e :: after) x y certification font_name
             font_size red green blue size); try assumption.
    rewrite lookup_app_l by (eapply lookup_lt_Some, Hl). exact Hl. }
  rewrite !(issue_certificates_off w _ _ _ _ _ _ _ _ _ _ _ _ Hmode).
  rewrite (range_split (length before)) by lia.
  destruct (Z.to_nat number_of_rows - length before)%nat as [|d] eqn:Hd; [lia|].
  split; [|split].
  - intros Hdraw. rewrite Hdraw in Hbody. apply bind_Abort.
    rewrite <- (app_nil_r (flat_map _ before)).
    now apply for_each_aborts_at.
  - intros Hdraw Hpdf. rewrite Hdraw, Hpdf in Hbody. apply bind_Abort.
    rewrite <- (app_nil_r (flat_map _ before)).
    now apply for_each_aborts_at.
  - intros Hdraw Hpdf Hpng. rewrite Hdraw, Hpdf, Hpng in Hbody. apply bind_Abort.
    now apply for_each_aborts_at.
Qed.

(** ** What a run can save, in any world *)

Section Events.
Context {A B : Type}.
Implicit Types (m : M A) (k : A -> M B) (w : world) (Q : event -> Prop).

(** The events of [m ;; k] are events of [m] or of [k] after a return of [m]. *)
Lemma bind_events Q m k w :
  Forall Q (snd (m w)) ->
  (forall a tr, m w = (Ret a, tr) -> Forall Q (snd (k a w))) ->
  Forall Q (snd (bind m k w)).
Proof.
  intros Hm Hk. unfold bind. destruct (m w) as [[a|ab] tr] eqn:E; [|exact Hm].
  specialize (Hk a tr eq_refl). destruct (k a w) as [r tr'].
  cbn [snd] in *. now apply Forall_app.
Qed.

End Events.

Lemma for_each_events {A} (Q : event -> Prop) (l : list A) (body : A -> M unit) w :
  (forall a, a ∈ l -> Forall Q (snd (body a w))) ->
  Forall Q (snd (for_each l body w)).
Proof.
  induction l as [|a l IH]; intros Hbody; [constructor|].
  cbn [for_each]. apply bind_events.
  - apply Hbody, list_elem_of_here.
  - intros _ _ _. apply IH. intros b Hb. now apply Hbody, list_elem_of_further.
Qed.

(** An index look-up raises [IndexError] or returns an element of the list. *)
Lemma list_getitem_cases {A} (l : list A) (i : Z) w :
  list_getitem l i w = (Abort (Uncaught IndexError), [])
  \/ exists a, a ∈ l /\ list_getitem l i w = (Ret a, []).
Proof.
  unfold list_getitem. destruct (_ <? 0); [now left|].
  destruct (l !! _) as [a|] eqn:Hl; [right | now left].
  exists a. split; [eapply list_elem_of_lookup_2, Hl | reflexivity].
Qed.

Lemma full_name_at_cases names (i : Z) w :
  full_name_at names i w = (Abort (Uncaught IndexError), [])
  \/ exists e, e ∈ names /\ full_name_at names i w = (Ret (full_name e), []).
Proof.
  unfold full_name_at, bind.
  destruct (list_getitem_cases names i w) as [->|(e & He & ->)]; [now left|].
  right. now exists e.
Qed.

Lemma full_name_at_returns names (i : Z) w name tr :
  full_name_at names i w = (Ret name, tr) ->
  exists e, e ∈ names /\ name = full_name e.
Proof.
  destruct (full_name_at_cases names i w) as [->|(e & He & ->)]; [discriminate|].
  intros [= <- _]. now exists e.
Qed.

Lemma full_name_at_silent names (i : Z) w : snd (full_name_at names i w) = [].
Proof. now destruct (full_name_at_cases names i w) as [->|(e & _ & ->)]. Qed.

Lemma Image_open_silent path w : snd (Image_open path w) = [].
Proof. unfold Image_open. now destruct (image_dims w path). Qed.

Lemma ImageFont_truetype_silent path size w : snd (ImageFont_truetype path size w) = [].
Proof. unfold ImageFont_truetype. now destruct (font_loads w path size). Qed.

Lemma Image_convert_silent im mode w : snd (Image_convert im mode w) = [].
Proof. unfold Image_convert. destruct im; try reflexivity. now destruct (can_decode w _). Qed.

Lemma ImageDraw_text_silent im xy text fnt fill w :
  snd (ImageDraw_text im xy text fnt fill w) = [].
Proof. unfold ImageDraw_text. now destruct (can_draw w _ _ _ _ _). Qed.

Lemma Image_save_events (Q : event -> Prop) im fp format params w :
  Q (Save im fp format params) -> Forall Q (snd (Image_save im fp format params w)).
Proof.
  intros HQ. unfold Image_save. destruct (can_save w fp); repeat constructor. exact HQ.
Qed.

(** X10: whatever the world does, every event of [issue_certificates] is a
    save; in test mode the file saved is "TEST.pdf" or "TEST.png", in full
    mode it is "<name>.pdf" or "<name>.PNG" for the name of an entry of the
    roster.  No other file is written and nothing is printed. *)
Theorem issue_certificates_file_names w names number_of_rows x y certification
    csv_file font_name font_size mode red green blue :
  Forall (fun ev =>
            exists fp, saved_name ev = Some fp
              /\ if String.eqb (PyStr.lower mode) "on"
                 then fp = "TEST.pdf" \/ fp = "TEST.png"
                 else exists e, e ∈ names
                        /\ (fp = full_name e +:+ ".pdf" \/ fp = full_name e +:+ ".PNG"))
         (snd (issue_certificates names number_of_rows x y certification csv_file
                 font_name font_size mode red green blue w)).
Proof.
  rewrite issue_certificates_blocks. destruct (String.eqb (PyStr.lower mode) "on").
  - apply bind_events.
    + unfold test_mode_block.
      apply bind_events; [now rewrite Image_open_silent | intros opened _ _].
      apply bind_events; [now rewrite Image_convert_silent | intros base _ _].
      apply bind_events; [now rewrite ImageFont_truetype_silent | intros fnt _ _].
      apply bind_events; [now rewrite full_name_at_silent | intros text _ _].
      apply bind_events; [now rewrite ImageDraw_text_silent | intros txt _ _].
      apply bind_events; [now rewrite Image_convert_silent | intros rgb_output _ _].
      apply bind_events; [apply Image_save_events; eauto | intros _ _ _].
      apply bind_events; [apply Image_save_events; eauto | intros _ _ _].
      constructor.
    + intros a tr Hret.
      destruct (test_mode_block_aborts w names x y certification font_name font_size
                  red green blue) as (ab & tr' & Hab).
      discriminate (eq_trans (eq_sym Hret) Hab).
  - apply bind_events; [constructor | intros _ _ _].
    apply bind_events; [|intros _ _ _; constructor].
    apply for_each_events. intros i _. unfold full_mode_body.
    apply bind_events; [now rewrite Image_open_silent | intros opened _ _].
    apply bind_events; [now rewrite Image_convert_silent | intros base _ _].
    apply bind_events; [now rewrite ImageFont_truetype_silent | intros fnt _ _].
    apply bind_events; [now rewrite full_name_at_silent | intros text _ _].
    apply bind_events; [now rewrite ImageDraw_text_silent | intros txt _ _].
    apply bind_events; [now rewrite Image_convert_silent | intros rgb_output _ _].
    apply bind_events; [now rewrite full_name_at_silent | intros pdf_name tr Hpdf].
    apply full_name_at_returns in Hpdf as (e & He & ->).
    apply bind_events; [apply Image_save_events; eauto 6 | intros _ _ _].
    apply bind_events; [now rewrite full_name_at_silent | intros png_name tr' Hpng].
    apply full_name_at_returns in Hpng as (e' & He' & ->).
    apply Image_save_events; eauto 6.
Qed.


(** ** How a run ends *)













(** ** A whole run *)

Lemma bind_Ret_silent {A B} (m : M A) (k : A -> M B) w a :
  m w = (Ret a, []) -> bind m k w = k a w.
Proof. intros Hm. unfold bind. rewrite Hm. now destruct (k a w). Qed.

(** Once the six checks have returned, [main] is the loading and the
    rendering. *)
Lemma main_after_checks w args :
  (forall check, check ∈ validators args -> check w = (Ret true, [])) ->
  main args w = load_and_issue args w.
Proof.
  intros Hpass. rewrite main_in_sequence. unfold validators in *.
  repeat (rewrite in_sequence_cons_pass;
          [| apply Hpass; repeat first [apply list_elem_of_here | apply list_elem_of_further]]).
  reflexivity.
Qed.

(** The roster of a file whose header names both columns. *)
Lemma get_full_name_run w csv_file fieldnames rest :
  csv_rows w csv_file = Some (fieldnames :: rest) ->
  "First name" ∈ fieldnames -> "Last name" ∈ fieldnames ->
  get_full_name csv_file w
  = (Ret (map (entry_of_row fieldnames) (Csv.data_rows rest),
          Z.of_nat (length (map (entry_of_row fieldnames) (Csv.data_rows rest)))), []).
Proof.
  intros Hfile Hfirst Hlast.
  unfold get_full_name, bind, open_csv. rewrite Hfile. cbn [Csv.DictReader].
  rewrite (get_full_name_loop_rows w fieldnames Hfirst Hlast).
  now rewrite length_map.
Qed.

(** X12: a whole run in full mode.  When the six checks return, the mode is
    not a spelling of "on", the roster file names both columns, the template
    opens and decodes, the font loads at the given size and, for every row
    of data, the name can be drawn and the two files can be saved, [main]
    saves the pair of files of every row of data, in the order of the file,
    and exits with "Certificates created successfully". *)
Theorem main_runs_full_mode w args fieldnames rest size :
  (forall check, check ∈ validators args -> check w = (Ret true, [])) ->
  PyStr.lower (arg_t args) <> "on" ->
  csv_rows w (arg_fi args) = Some (fieldnames :: rest) ->
  "First name" ∈ fieldnames ->
  "Last name" ∈ fieldnames ->
  image_dims w (arg_i args) = Some size ->
  can_decode w (arg_i args) = true ->
  font_loads w ("fonts/" +:+ arg_fo args) (arg_s args) = true ->
  (forall row, row ∈ Csv.data_rows rest ->
     draws (arg_x args) (arg_y args) (arg_fo args) (arg_s args) (arg_r args)
           (arg_g args) (arg_b args) size w
           (full_name (entry_of_row fieldnames row)) = true
     /\ can_save w (full_name (entry_of_row fieldnames row) +:+ ".pdf") = true
     /\ can_save w (full_name (entry_of_row fieldnames row) +:+ ".PNG") = true) ->
  main args w
  = (Abort (SysExit (Some "Certificates created successfully")),
     flat_map (entry_pair (arg_x args) (arg_y args) (arg_i args) (arg_fo args)
                          (arg_s args) (arg_r args) (arg_g args) (arg_b args) size)
              (map (entry_of_row fieldnames) (Csv.data_rows rest))).
Proof.
  intros Hpass Hmode Hfile Hfirst Hlast Himg Hdecode Hfont Hgo.
  rewrite (main_after_checks w args Hpass). unfold load_and_issue.
  erewrite bind_Ret; [ | apply (get_full_name_run _ _ _ _ Hfile Hfirst Hlast) | ].
  2: { cbv beta iota. apply issue_certificates_full_run; try eassumption; [lia|].
       rewrite Nat2Z.id, take_ge by lia.
       intros e (row & -> & Hrow)%list_elem_of_fmap. now apply Hgo. }
  cbn [app]. now rewrite Nat2Z.id, take_ge by lia.
Qed.

(** A whole run in test mode, up to the drawing of the name. *)
Lemma main_test_mode_run w args fieldnames rest size :
  (forall check, check ∈ validators args -> check w = (Ret true, [])) ->
  PyStr.lower (arg_t args) = "on" ->
  csv_rows w (arg_fi args) = Some (fieldnames :: rest) ->
  "First name" ∈ fieldnames ->
  "Last name" ∈ fieldnames ->
  image_dims w (arg_i args) = Some size ->
  can_decode w (arg_i args) = true ->
  font_loads w ("fonts/" +:+ arg_fo args) (arg_s args) = true ->
  can_save w "TEST.pdf" = true ->
  can_save w "TEST.png" = true ->
  main args w
  = match Csv.data_rows rest with
    | [] => (Abort (Uncaught IndexError), [])
    | row :: _ =>
        if draws (arg_x args) (arg_y args) (arg_fo args) (arg_s args) (arg_r args)
                 (arg_g args) (arg_b args) size w
                 (full_name (entry_of_row fieldnames row))
        then (Abort (SysExit (Some "TEST certificates created successfully")),
              test_pair (arg_x args) (arg_y args) (arg_i args) (arg_fo args)
                        (arg_s args) (arg_r args) (arg_g args) (arg_b args) size
                        (entry_of_row fieldnames row))
        else (Abort (Uncaught (Failed (DrawText (arg_x args, arg_y args)
                                         (full_name (entry_of_row fieldnames row))))),
              [])
    end.
Proof.
  intros Hpass Hmode Hfile Hfirst Hlast Himg Hdecode Hfont Hpdf Hpng.
  rewrite (main_after_checks w args Hpass). unfold load_and_issue.
  rewrite (bind_Ret_silent _ _ w _ (get_full_name_run _ _ _ _ Hfile Hfirst Hlast)).
  cbv beta iota.
  rewrite (issue_certificates_on w _ _ _ _ _ _ _ _ _ _ _ _ Hmode).
  rewrite (test_mode_block_run w _ _ _ _ _ _ _ _ _ size Himg Hdecode Hfont).
  destruct (Csv.data_rows rest) as [|row rows]; [reflexivity|].
  cbn [map]. now rewrite Hpdf, Hpng.
Qed.

(** X13: a whole run in test mode.  When the six checks return, the mode is
    a spelling of "on", the roster file names both columns, the template
    opens and decodes, the font loads and the two files can be saved: with
    a first row of data whose name can be drawn, [main] saves "TEST.pdf" and
    "TEST.png" showing that row's name and exits with "TEST certificates
    created successfully"; with a first row whose name cannot be drawn, the
    run ends in the exception of the drawing and saves nothing; with no row
    of data, it raises [IndexError] and saves nothing. *)
Theorem main_runs_test_mode w args fieldnames rest size :
  (forall check, check ∈ validators args -> check w = (Ret true, [])) ->
  PyStr.lower (arg_t args) = "on" ->
  csv_rows w (arg_fi args) = Some (fieldnames :: rest) ->
  "First name" ∈ fieldnames ->
  "Last name" ∈ fieldnames ->
  image_dims w (arg_i args) = Some size ->
  can_decode w (arg_i args) = true ->
  font_loads w ("fonts/" +:+ arg_fo args) (arg_s args) = true ->
  can_save w "TEST.pdf" = true ->
  can_save w "TEST.png" = true ->
  main args w
  = match Csv.data_rows rest with
    | [] => (Abort (Uncaught IndexError), [])
    | row :: _ =>
        if draws (arg_x args) (arg_y args) (arg_fo args) (arg_s args) (arg_r args)
                 (arg_g args) (arg_b args) size w
                 (full_name (entry_of_row fieldnames row))
        then (Abort (SysExit (Some "TEST certificates created successfully")),
              test_pair (arg_x args) (arg_y args) (arg_i args) (arg_fo args)
                        (arg_s args) (arg_r args) (arg_g args) (arg_b args) size
                        (entry_of_row fieldnames row))
        else (Abort (Uncaught (Failed (DrawText (arg_x args, arg_y args)
                                         (full_name (entry_of_row fieldnames row))))),
              [])
    end.
Proof. exact (main_test_mode_run w args fieldnames rest size). Qed.


(** ** The whole runs and the failing steps, evaluated *)

Lemma issue_certificates_partial_output_witness :
  issue_certificates ([ada] ++ alan :: []) 2 10 20 "cert.png" "names.csv"
    "FreeMono.ttf" 12 "off" 0 0 0 alan_pdf_refused_world
  = (Abort (Uncaught (Failed (SaveImage (full_name alan +:+ ".pdf")))),
     flat_map (entry_pair 10 20 "cert.png" "FreeMono.ttf" 12 0 0 0 (800, 600)) [ada]).
Proof.
  refine (proj1 (proj2 (issue_certificates_partial_output alan_pdf_refused_world [ada]
                          alan [] 2 10 20 "cert.png" "names.csv" "FreeMono.ttf" 12
                          "off" 0 0 0 (800, 600) _ _ _ _ _ _)) _ _).
  - discriminate.
  - reflexivity.
  - reflexivity.
  - reflexivity.
  - intros a [->|Ha]%elem_of_cons; [repeat split; reflexivity | now apply elem_of_nil in Ha].
  - reflexivity.
  - reflexivity.
  - reflexivity.
Defined.

Lemma example_checks_pass args :
  arg_i args = "cert.png" -> arg_fo args = "FreeMono.ttf" -> arg_fi args = "names.csv" ->
  arg_x args = 10 -> arg_y args = 20 ->
  arg_r args = 0 -> arg_g args = 0 -> arg_b args = 0 ->
  arg_t args = "ON" \/ arg_t args = "OFF" ->
  forall check, check ∈ validators args -> check example_world = (Ret true, []).
Proof.
  intros Hi Hfo Hfi Hx Hy Hr Hg Hb Ht check. unfold validators.
  rewrite Hi, Hfo, Hfi, Hx, Hy, Hr, Hg, Hb, !elem_of_cons, elem_of_nil.
  intros [->|[->|[->|[->|[->|[->|[]]]]]]]; try reflexivity.
  destruct Ht as [-> | ->]; reflexivity.
Defined.

Lemma main_runs_full_mode_witness :
  main full_mode_args example_world
  = (Abort (SysExit (Some "Certificates created successfully")),
     flat_map (entry_pair 10 20 "cert.png" "FreeMono.ttf" 12 0 0 0 (800, 600))
              (map (entry_of_row ["First name"; "Last name"])
                   (Csv.data_rows [["Ada"; "Lovelace"]; ["Alan"; "Turing"]]))).
Proof.
  apply (main_runs_full_mode example_world full_mode_args ["First name"; "Last name"]
           [["Ada"; "Lovelace"]; ["Alan"; "Turing"]] (800, 600)).
  - apply example_checks_pass; try reflexivity. now right.
  - discriminate.
  - reflexivity.
  - apply list_elem_of_here.
  - apply list_elem_of_further, list_elem_of_here.
  - reflexivity.
  - reflexivity.
  - reflexivity.
  - intros row _. repeat split; reflexivity.
Defined.

Lemma main_runs_test_mode_witness :
  main test_mode_args example_world
  = (Abort (SysExit (Some "TEST certificates created successfully")),
     test_pair 10 20 "cert.png" "FreeMono.ttf" 12 0 0 0 (800, 600)
               (entry_of_row ["First name"; "Last name"] ["Ada"; "Lovelace"])).
Proof.
  apply (main_runs_test_mode example_world test_mode_args ["First name"; "Last name"]
           [["Ada"; "Lovelace"]; ["Alan"; "Turing"]] (800, 600)).
  - apply example_checks_pass; try reflexivity. now left.
  - reflexivity.
  - reflexivity.
  - apply list_elem_of_here.
  - apply list_elem_of_further, list_elem_of_here.
  - reflexivity.
  - reflexivity.
  - reflexivity.
  - reflexivity.
  - reflexivity.
Defined.

(** A font size the renderer refuses: the checks pass, the font loads, and
    the run ends in the exception of the drawing with no file saved and no
    success message. *)
Example main_oversized_font :
  main oversized_font_args example_world
  = (Abort (Uncaught (Failed (DrawText (10, 20) "Ada Lovelace"))), []).
Proof.
  apply (main_test_mode_run example_world oversized_font_args
           ["First name"; "Last name"]
           [["Ada"; "Lovelace"]; ["Alan"; "Turing"]] (800, 600)).
  - apply example_checks_pass; try reflexivity. now left.
  - reflexivity.
  - reflexivity.
  - apply list_elem_of_here.
  - apply list_elem_of_further, list_elem_of_here.
  - reflexivity.
  - reflexivity.
  - reflexivity.
  - reflexivity.
  - reflexivity.
Qed.


(** ** Look-ups in bounds *)

Lemma bind_in_bounds {A B} (m : M A) (k : A -> M B) w :
  in_bounds m w ->
  (forall a tr, m w = (Ret a, tr) -> in_bounds (k a) w) ->
  in_bounds (bind m k) w.
Proof.
  unfold in_bounds, bind. intros Hm Hk. destruct (m w) as [[a|ab] tr].
  - specialize (Hk a tr eq_refl). now destruct (k a w).
  - now destruct ab as [msg|[]].
Qed.

Lemma for_each_in_bounds {A} (l : list A) (body : A -> M unit) w :
  (forall a, a ∈ l -> in_bounds (body a) w) -> in_bounds (for_each l body) w.
Proof.
  induction l as [|a l IH]; intros Hbody; [reflexivity|].
  cbn [for_each]. apply bind_in_bounds.
  - apply Hbody, list_elem_of_here.
  - intros _ _ _. apply IH. intros b Hb. now apply Hbody, list_elem_of_further.
Qed.

Lemma get_full_name_loop_in_bounds reader names number_of_rows w :
  in_bounds (get_full_name_loop reader names number_of_rows) w.
Proof.
  revert names number_of_rows. induction reader as [|row reader IH]; intros names n.
  - reflexivity.
  - cbn [get_full_name_loop].
    apply bind_in_bounds;
      [unfold in_bounds, Csv.dict_getitem; now destruct (_ !! _)|intros fn _ _].
    apply bind_in_bounds;
      [unfold in_bounds, Csv.dict_getitem; now destruct (_ !! _)|intros ln _ _].
    apply IH.
Qed.

Lemma full_name_at_in_bounds names (n : nat) w :
  (n < length names)%nat -> in_bounds (full_name_at names (Z.of_nat n)) w.
Proof.
  intros Hn. destruct (lookup_lt_is_Some_2 names n Hn) as [e He].
  unfold in_bounds. now rewrite (full_name_at_lookup names n e w He).
Qed.

(** Steps through statements that are not look-ups in a list. *)
Ltac in_bounds_steps :=
  repeat first
    [ apply get_full_name_loop_in_bounds
    | apply bind_in_bounds; [|intros ? ? _]
    | progress cbv beta zeta
    | match goal with |- in_bounds (if ?b then _ else _) _ => destruct b end
    | solve [ unfold in_bounds, Image_open, Image_convert, ImageFont_truetype,
                ImageDraw_text, Image_save, open_csv, os_listdir_fonts, sys_exit,
                print, ret;
              repeat match goal with |- context [match ?c with _ => _ end] => destruct c end;
              reflexivity ] ].

Lemma validators_in_bounds w args check :
  check ∈ validators args -> in_bounds check w.
Proof.
  unfold validators. rewrite !elem_of_cons, elem_of_nil.
  intros [->|[->|[->|[->|[->|[->|[]]]]]]].
  - unfold validate_test_mode. in_bounds_steps.
  - unfold validate_font. apply bind_in_bounds; [in_bounds_steps | intros fonts_list _ _].
    apply bind_in_bounds; [|intros; reflexivity].
    destruct (bool_decide _); [|reflexivity].
    apply bind_in_bounds; [reflexivity | intros _ _ _].
    apply bind_in_bounds; [|intros; reflexivity].
    apply for_each_in_bounds. reflexivity.
  - unfold validate_image_extension. in_bounds_steps.
  - unfold validate_coordinates. in_bounds_steps.
  - unfold validate_csv_extension. in_bounds_steps.
  - unfold validate_rgb_colors. in_bounds_steps.
Qed.

Lemma in_sequence_in_bounds {B} w (rest : M B) checks :
  (forall check, check ∈ checks -> in_bounds check w) ->
  in_bounds rest w ->
  in_bounds (in_sequence checks rest) w.
Proof.
  intros Hchecks Hrest. induction checks as [|c checks IH]; [exact Hrest|].
  cbn [in_sequence foldr]. apply bind_in_bounds.
  - apply Hchecks, list_elem_of_here.
  - intros _ _ _. apply IH. intros check Hin. now apply Hchecks, list_elem_of_further.
Qed.

(** With the count of the roster, the loop of full mode stays in bounds. *)
Lemma issue_certificates_in_bounds w names x y certification csv_file font_name
    font_size mode red green blue :
  PyStr.lower mode <> "on" ->
  in_bounds (issue_certificates names (Z.of_nat (length names)) x y certification
               csv_file font_name font_size mode red green blue) w.
Proof.
  intros Hmode. unfold issue_certificates.
  destruct (String.eqb_spec (PyStr.lower mode) "on") as [Heq|_]; [now destruct Hmode|].
  apply bind_in_bounds; [reflexivity | intros _ _ _].
  apply bind_in_bounds; [|intros; reflexivity].
  apply for_each_in_bounds. intros i Hi. unfold range in Hi. rewrite Nat2Z.id in Hi.
  apply list_elem_of_fmap in Hi as (n & -> & Hn).
  apply list_elem_of_In, in_seq in Hn.
  assert (Hname : in_bounds (full_name_at names (Z.of_nat n)) w)
    by (apply full_name_at_in_bounds; lia).
  repeat first [ exact Hname
               | apply bind_in_bounds; [|intros ? ? _]
               | progress cbv beta zeta
               | solve [ unfold in_bounds, Image_open, Image_convert, ImageFont_truetype,
                         ImageDraw_text, Image_save;
                         repeat match goal with
                                | |- context [match ?c with _ => _ end] => destruct c
                                end;
                         reflexivity ] ].
Qed.

(** X14: in full mode [main] never ends in an [IndexError], whatever the
    files hold and whatever fails: the count [get_full_name] hands over is
    the length of the roster, so every look-up of the loop is in bounds. *)
Theorem main_full_mode_in_bounds w args :
  PyStr.lower (arg_t args) <> "on" ->
  fst (main args w) <> Abort (Uncaught IndexError).
Proof.
  intros Hmode.
  assert (Hb : in_bounds (main args) w).
  { rewrite main_in_sequence. apply in_sequence_in_bounds.
    - intros check. apply validators_in_bounds.
    - unfold load_and_issue. apply bind_in_bounds.
      + unfold get_full_name. in_bounds_steps.
      + intros [names_list rows_count] tr' Hload.
        unfold get_full_name, bind, open_csv in Hload.
        destruct (csv_rows w (arg_fi args)) as [rows|]; [|discriminate].
        destruct (get_full_name_loop _ _ _ w) as [[[names' n']|ab] tr''] eqn:Hloop;
          [|discriminate].
        injection Hload as <- <- _.
        apply get_full_name_loop_returns in Hloop as (_ & Hlen & ->).
        cbn [length] in Hlen.
        replace (0 + Z.of_nat (length (Csv.DictReader rows)))
          with (Z.of_nat (length names')) by lia.
        now apply issue_certificates_in_bounds. }
  unfold in_bounds in Hb.
  destruct (fst (main args w)) as [?|[?|[]]]; cbn in Hb; try discriminate Hb; discriminate.
Qed.

Lemma main_full_mode_in_bounds_witness :
  fst (main full_mode_args example_world) <> Abort (Uncaught IndexError).
Proof.
  apply (main_full_mode_in_bounds example_world full_mode_args). discriminate.
Defined.
